(** * servershainki: the quiz backend's question generator and session controller

    A shallow embedding of the classes [QuestionGenerator] and [GameService]
    (services/QuestionGenerator.ts, services/GameService.js), followed by
    the properties of the specification that concern them.

    Conventions of the embedding:
    - a JavaScript [number] that carries a decimal value (an answer, an
      operand, a draw of [Math.random]) is an IEEE 754 binary64 [float];
      numbers that are integers by construction (timestamps in ms, scores,
      counters, sizes) are [Z] or [nat];
    - a [Set<string>] whose iteration order is used is the list of its
      elements in insertion order; the [Map] of connected users and the
      participant set are stdpp's [gmap] and [gset];
    - [Math.random], [uuidv4] and the clock are inputs: an entropy stream
      held in the generator's state and a [now] argument of each entry
      point;
    - an [async] method is split at its [await]: the synchronous prefix
      either returns or suspends, and the suspended call is resumed later
      with the outcome of the awaited operation. *)

From Stdlib Require Import ZArith Floats Ascii String DecimalString List Lia Bool.
From stdpp Require Import base option list gmap strings.
Import ListNotations.

#[local] Set Warnings "-inexact-float".

Local Open Scope string_scope.
Local Open Scope list_scope.
Local Open Scope Z_scope.

(* ===================================================================== *)
(** * JavaScript numbers *)
(* ===================================================================== *)

Module JS.

(** The exact value of a finite float is [m * 2^e]; [toParts] gives sign,
    [m] and [e] ([None] for NaN and the infinities). *)
Definition toParts (x : float) : option (bool * Z * Z) :=
  match Prim2SF x with
  | S754_zero s => Some (s, 0, 0)
  | S754_finite s m e => Some (s, Zpos m, e)
  | S754_infinity _ | S754_nan => None
  end.

(** An integer of magnitude below [2^62] as a float (exact below [2^53]). *)
Definition ofZ (z : Z) : float :=
  if z <? 0 then PrimFloat.opp (PrimFloat.of_uint63 (Uint63.of_Z (- z)))
  else PrimFloat.of_uint63 (Uint63.of_Z z).

Definition isNaN (x : float) : bool := PrimFloat.is_nan x.
Definition isFinite (x : float) : bool := PrimFloat.is_finite x.

(** [x < y], [x <= y], [x > y] and [x === y] on numbers (all false on NaN). *)
Definition lt (x y : float) : bool := PrimFloat.ltb x y.
Definition le (x y : float) : bool := PrimFloat.leb x y.
Definition gt (x y : float) : bool := PrimFloat.ltb y x.
Definition strictEq (x y : float) : bool := PrimFloat.eqb x y.

(** [Math.floor]: the largest integer not above [x]. Floats with a
    non-negative exponent are integers already. *)
Definition Math_floor (x : float) : float :=
  match toParts x with
  | Some (s, m, e) =>
      if (0 <=? e) || (m =? 0) then x
      else
        let d := 2 ^ (- e) in
        if s then
          let q := (m + d - 1) / d in
          if q =? 0 then PrimFloat.neg_zero else ofZ (- q)
        else ofZ (m / d)
  | None => x
  end.

(** [Math.round]: the nearest integer, ties towards [+∞]; computed exactly
    as [floor (x + 1/2)] on the parts of [x]. *)
Definition Math_round (x : float) : float :=
  match toParts x with
  | Some (s, m, e) =>
      if (0 <=? e) || (m =? 0) then x
      else
        let d := 2 ^ (- e) in
        let n := if s then - m else m in
        let q := (2 * n + d) / (2 * d) in
        if q =? 0 then (if s then PrimFloat.neg_zero else PrimFloat.zero)
        else ofZ q
  | None => x
  end.

Definition Math_abs (x : float) : float := PrimFloat.abs x.
Definition Math_sqrt (x : float) : float := PrimFloat.sqrt x.

(** [Math.max] and [Math.min] of two numbers: NaN if either is NaN. *)
Definition Math_max (x y : float) : float :=
  if isNaN x || isNaN y then PrimFloat.nan
  else if PrimFloat.ltb x y then y else x.
Definition Math_min (x y : float) : float :=
  if isNaN x || isNaN y then PrimFloat.nan
  else if PrimFloat.ltb y x then y else x.

(** [Number.isInteger]. *)
Definition Number_isInteger (x : float) : bool :=
  isFinite x && PrimFloat.eqb (Math_floor x) x.

(** The integer value of an integer-valued float. *)
Definition toZ (x : float) : Z :=
  match toParts x with
  | Some (s, m, e) =>
      let a := if 0 <=? e then m * 2 ^ e else m / 2 ^ (- e) in
      if s then - a else a
  | None => 0
  end.

(** [Math.pow base power] for the calls the generator makes: [power] is a
    small non-negative integer, and the result is the repeated product. *)
Fixpoint powNat (base : float) (n : nat) : float :=
  match n with
  | O => PrimFloat.one
  | S n' => PrimFloat.mul base (powNat base n')
  end.
Definition Math_pow (base power : float) : float :=
  if Number_isInteger power && PrimFloat.leb PrimFloat.zero power
  then powNat base (Z.to_nat (toZ power))
  else PrimFloat.nan.

(** [x % y]: the remainder of the truncated division, exact. *)
Definition rem (x y : float) : float :=
  match toParts x, toParts y with
  | Some (sx, mx, ex), Some (_, my, ey) =>
      if my =? 0 then PrimFloat.nan
      else
        let e := Z.min ex ey in
        let r := Z.rem (mx * 2 ^ (ex - e)) (my * 2 ^ (ey - e)) in
        if r =? 0 then (if sx then PrimFloat.neg_zero else PrimFloat.zero)
        else
          let v := FloatOps.Z.ldexp (ofZ r) e in
          if sx then PrimFloat.opp v else v
  | Some _, None => if isNaN y then PrimFloat.nan else x
  | None, _ => PrimFloat.nan
  end.

(** [array[i]] for a number [i]: defined for an integer index in range. *)
Definition index {A} (l : list A) (i : float) : option A :=
  if Number_isInteger i && PrimFloat.leb PrimFloat.zero i
  then nth_error l (Z.to_nat (toZ i))
  else None.

(** Decimal digits of a non-negative integer. *)
Definition digits (z : Z) : string :=
  NilZero.string_of_uint (N.to_uint (Z.to_N z)).

Fixpoint zeros (n : nat) : string :=
  match n with O => "" | S n' => String "0" (zeros n') end.

(** Comparison of the rationals [a * 10^p] and [c * 2^q]. *)
Definition cmpScaled (a p c q : Z) : comparison :=
  Z.compare (a * 10 ^ Z.max p 0 * 2 ^ Z.max (- q) 0)
            (c * 2 ^ Z.max q 0 * 10 ^ Z.max (- p) 0).

(** Does the decimal [s * 10^p] convert to the float [m * 2^e]? It does
    when it lies between the midpoints to the two neighbouring floats, the
    midpoints included when [m] is even (round to nearest, ties to even).
    The lower neighbour is half as far away when [m] is a power of two. *)
Definition roundsTo (m e s p : Z) : bool :=
  let lower := if (m =? 2 ^ 52) && (-1074 <? e) then 4 * m - 1 else 4 * m - 2 in
  let upper := 4 * m + 2 in
  let above := cmpScaled s p lower (e - 2) in
  let below := cmpScaled s p upper (e - 2) in
  if Z.even m
  then negb (match above with Lt => true | _ => false end)
       && negb (match below with Gt => true | _ => false end)
  else (match above with Gt => true | _ => false end)
       && (match below with Lt => true | _ => false end).

(** The largest [j] with [10^j <= m * 2^e], searched upwards from an
    underestimate. *)
Fixpoint log10From (fuel : nat) (m e j : Z) : Z :=
  match fuel with
  | O => j
  | S fuel' =>
      match cmpScaled 1 (j + 1) m e with
      | Gt => j
      | _ => log10From fuel' m e (j + 1)
      end
  end.
Definition log10Floor (m e : Z) : Z :=
  log10From 4 m e ((e + Z.log2 m) * 30103 / 100000 - 1).

(** The shortest decimal [(s, n)], [s] of [k] digits and value
    [s * 10^(n-k)], that converts back to [m * 2^e]; of the two candidates
    of a length the one nearer to the float is preferred, the even one when
    they are equally near. *)
Fixpoint shortest (fuel : nat) (m e n0 k : Z) : Z * Z :=
  let p := n0 - k in
  let lo := if 0 <=? p
            then (if 0 <=? e then m * 2 ^ e / 10 ^ p else m / (2 ^ (- e) * 10 ^ p))
            else (if 0 <=? e then m * 2 ^ e * 10 ^ (- p) else m * 10 ^ (- p) / 2 ^ (- e)) in
  let hi := lo + 1 in
  let okLo := roundsTo m e lo p in
  let okHi := roundsTo m e hi p in
  let nearerHi :=
    (* [hi * 10^p - x < x - lo * 10^p], that is [(lo + hi) * 10^p < 2 x] *)
    match cmpScaled (lo + hi) p (2 * m) e with
    | Lt => true
    | Eq => Z.even hi
    | Gt => false
    end in
  let norm s := if s =? 10 ^ k then (10 ^ (k - 1), n0 + 1) else (s, n0) in
  match fuel with
  | O => (lo, n0)
  | S fuel' =>
      if okLo && okHi then (if nearerHi then norm hi else (lo, n0))
      else if okLo then (lo, n0)
      else if okHi then norm hi
      else shortest fuel' m e n0 (k + 1)
  end.

(** Trailing zeros of the digit string are not part of [s]. *)
Fixpoint stripZeros (fuel : nat) (s : Z) : Z :=
  match fuel with
  | O => s
  | S fuel' => if (s mod 10 =? 0) && negb (s =? 0) then stripZeros fuel' (s / 10) else s
  end.

(** [Number::toString] (radix 10) of ECMA-262, used by template literals
    and [toString()]. *)
Definition Number_toString (x : float) : string :=
  match Prim2SF x with
  | S754_nan => "NaN"
  | S754_zero _ => "0"
  | S754_infinity s => if s then "-Infinity" else "Infinity"
  | S754_finite sg mp e =>
      let m := Zpos mp in
      let n0 := log10Floor m e + 1 in
      let '(s0, n) := shortest 17 m e n0 1 in
      let s := stripZeros 20 s0 in
      let ds := digits s in
      let k := Z.of_nat (String.length ds) in
      let body :=
        if (k <=? n) && (n <=? 21) then ds +:+ zeros (Z.to_nat (n - k))
        else if (0 <? n) && (n <=? 21)
        then substring 0 (Z.to_nat n) ds +:+ "." +:+
             substring (Z.to_nat n) (Z.to_nat (k - n)) ds
        else if (-6 <? n) && (n <=? 0)
        then "0." +:+ zeros (Z.to_nat (- n)) +:+ ds
        else
          let ex := n - 1 in
          let mant := if k =? 1 then ds
                      else substring 0 1 ds +:+ "." +:+ substring 1 (Z.to_nat (k - 1)) ds in
          mant +:+ "e" +:+ (if ex <? 0 then "-" else "+") +:+ digits (Z.abs ex) in
      if sg then "-" +:+ body else body
  end.

End JS.

(* ===================================================================== *)
(** * Shared types (src/types/index.ts) *)
(* ===================================================================== *)

Inductive Difficulty := easy | medium | hard.

(** [Omit<Question, "id" | "createdAt">]: what an archetype produces. *)
Record Draft := {
  problem : string;
  answer : float;
  difficulty : Difficulty
}.

(** [Question]: a draft completed by [{ ...question, id, createdAt }]. *)
Record Question := {
  id : string;
  body : Draft;
  createdAt : Z
}.

(** [question.answer], [question.problem] and [question.difficulty] of a
    [Question]. *)
Definition answerOf (q : Question) : float := answer (body q).
Definition problemOf (q : Question) : string := problem (body q).
Definition difficultyOf (q : Question) : Difficulty := difficulty (body q).

(** How a call completes: normally with a value, or by a throw. *)
Inductive Completion (A : Type) :=
| Normal (a : A)
| Throw.
Arguments Normal {A} a.
Arguments Throw {A}.

(* ===================================================================== *)
(** * QuestionGenerator *)
(* ===================================================================== *)

Module QuestionGenerator.

Import JS.

Definition QUESTION_TYPES : list string :=
  ["arithmetic"; "algebra"; "fractions"; "percentages"; "powers"; "mixed"].

Record Config := {
  min : float;
  max : float;
  operators : list string;
  maxTerms : float;
  allowDecimals : bool;
  allowNegatives : bool
}.

Definition DIFFICULTY_CONFIG (d : Difficulty) : Config :=
  match d with
  | easy => {| min := 1; max := 50; operators := ["+"; "-"]; maxTerms := 2;
               allowDecimals := false; allowNegatives := false |}
  | medium => {| min := 1; max := 200; operators := ["+"; "-"; "*"]; maxTerms := 3;
                 allowDecimals := true; allowNegatives := true |}
  | hard => {| min := 1; max := 1000; operators := ["+"; "-"; "*"; "/"]; maxTerms := 4;
               allowDecimals := true; allowNegatives := true |}
  end.

(** The static fields of the class, with the two sources of randomness the
    class reads: the values [Math.random] returns, in the order of the
    calls, and likewise the strings [uuidv4] returns. *)
Record State := {
  entropy : nat -> float;
  drawn : nat;
  uuids : nat -> string;
  issued : nat;
  generatedQuestions : list string;
  questionCounter : Z
}.

(** [Math.random] promises a number in [[0, 1)]. *)
Definition unitInterval (r : float) : bool :=
  PrimFloat.leb 0 r && PrimFloat.ltb r 1.
Definition validEntropy (f : nat -> float) : Prop :=
  forall n, unitInterval (f n) = true.

(** ** Computations over the generator's state *)

Definition M (A : Type) : Type := State -> Completion A * State.

Definition ret {A} (a : A) : M A := fun s => (Normal a, s).
Definition bind {A B} (m : M A) (k : A -> M B) : M B :=
  fun s => match m s with
           | (Normal a, s') => k a s'
           | (Throw, s') => (Throw, s')
           end.
(** [try { m } catch { h }] *)
Definition tryCatch {A} (m : M A) (h : M A) : M A :=
  fun s => match m s with
           | (Normal a, s') => (Normal a, s')
           | (Throw, s') => h s'
           end.
Definition get : M State := fun s => (Normal s, s).
Definition modify (f : State -> State) : M unit := fun s => (Normal tt, f s).
Definition lift {A} (c : Completion A) : M A := fun s => (c, s).

Notation "'let*' x ':=' m 'in' k" := (bind m (fun x => k))
  (at level 10, x name, m at level 100, k at level 200).
Notation "m ;;; k" := (bind m (fun _ => k))
  (at level 100, k at level 200, right associativity).

Definition Math_random : M float :=
  fun s => (Normal (entropy s (drawn s)),
            {| entropy := entropy s; drawn := S (drawn s); uuids := uuids s;
               issued := issued s; generatedQuestions := generatedQuestions s;
               questionCounter := questionCounter s |}).

Definition uuidv4 : M string :=
  fun s => (Normal (uuids s (issued s)),
            {| entropy := entropy s; drawn := drawn s; uuids := uuids s;
               issued := S (issued s); generatedQuestions := generatedQuestions s;
               questionCounter := questionCounter s |}).

Definition setGeneratedQuestions (l : list string) (s : State) : State :=
  {| entropy := entropy s; drawn := drawn s; uuids := uuids s; issued := issued s;
     generatedQuestions := l; questionCounter := questionCounter s |}.

Definition setQuestionCounter (c : Z) (s : State) : State :=
  {| entropy := entropy s; drawn := drawn s; uuids := uuids s; issued := issued s;
     generatedQuestions := generatedQuestions s; questionCounter := c |}.

(** ** [Set<string>] in insertion order *)

Definition Set_has (k : string) (l : list string) : bool :=
  existsb (String.eqb k) l.
Definition Set_add (k : string) (l : list string) : list string :=
  if Set_has k l then l else l ++ [k].
(** [new Set(array)] *)
Definition Set_of (a : list string) : list string :=
  fold_left (fun acc k => Set_add k acc) a [].
(** [array.slice(-n)] *)
Definition slice_last {A} (n : nat) (a : list A) : list A :=
  skipn (length a - n) a.

(** ** Helpers *)

Definition len {A} (l : list A) : float := ofZ (Z.of_nat (length l)).

(** [Math.floor(Math.random() * (max - min + 1)) + min] *)
Definition randomNumber (min max : float) : M float :=
  let* r := Math_random in
  ret (Math_floor (r * (max - min + 1)) + min)%float.

(** [list[Math.floor(Math.random() * n)]] *)
Definition choose {A} (l : list A) (n : float) : M (option A) :=
  let* r := Math_random in
  ret (index l (Math_floor (r * n)%float)).

(** [v || d] on numbers: [d] when [v] is [0] or NaN. *)
Definition orElse (v d : float) : float :=
  if strictEq v 0 || isNaN v then d else v.

(** The [for] loop of [findDivisor], from [i] on. *)
Fixpoint divisorsFrom (fuel : nat) (num i : float) (divisors : list float) : list float :=
  match fuel with
  | O => divisors
  | S fuel' =>
      if le i (Math_sqrt num) then
        let divisors1 :=
          if strictEq (rem num i) 0 then
            let d1 := divisors ++ [i] in
            if negb (strictEq i (num / i)%float) then d1 ++ [(num / i)%float] else d1
          else divisors in
        divisorsFrom fuel' num (i + 1)%float divisors1
      else divisors
  end.

Definition findDivisor (num : float) : M float :=
  if le num 1 then ret 1%float
  else
    let divisors := divisorsFrom (S (Z.to_nat (toZ (Math_floor (Math_sqrt num))))) num 1 [] in
    let* d := choose divisors (len divisors) in
    (* [divisors[...] || 1] *)
    ret (match d with
         | Some v => orElse v 1
         | None => 1%float
         end).

Definition isValidAnswer (result : float) : bool :=
  negb (isNaN result) && isFinite result && lt (Math_abs result) 1000000.

Definition str (x : float) : string := Number_toString x.

(** [operator === o] for an operator read from an array: [false] when the
    read gave [undefined]; [text operator] is the operator inside a template
    literal. *)
Definition opIs (operator : option string) (o : string) : bool :=
  match operator with Some x => String.eqb x o | None => false end.
Definition text (operator : option string) : string :=
  match operator with Some o => o | None => "undefined" end.

(** ** Arithmetic expressions and mathjs [evaluate]

    An expression the generator writes is the text
    [first op1 n1 op2 n2 ...]; it is kept as its operands and operators,
    and [render] is the text. [evaluate] is mathjs's evaluation of that
    text on numbers: [*] and [/] bind tighter than [+] and [-], all four
    associate to the left, and any other operator word is an error. *)
Record Expression := {
  first : float;
  rest : list (string * float)
}.

Definition render (e : Expression) : string :=
  fold_left (fun acc t => acc +:+ " " +:+ fst t +:+ " " +:+ str (snd t))
            (rest e) (str (first e)).

(** [sum] adds the product being read, [term], to what stands before it. *)
Fixpoint evalRest (sum : float -> float) (term : float)
    (ts : list (string * float)) : Completion float :=
  match ts with
  | [] => Normal (sum term)
  | (op, n) :: ts' =>
      if String.eqb op "*" then evalRest sum (term * n)%float ts'
      else if String.eqb op "/" then evalRest sum (term / n)%float ts'
      else if String.eqb op "+" then evalRest (fun t => (sum term + t)%float) n ts'
      else if String.eqb op "-" then evalRest (fun t => (sum term - t)%float) n ts'
      else Throw
  end.

Definition evaluate (e : Expression) : Completion float :=
  evalRest (fun t => t) (first e) (rest e).

(** The body of the [for] loop of [generateArithmeticExpression], run while
    [i < numTerms]. *)
Fixpoint expressionLoop (fuel : nat) (config : Config) (numTerms i : float)
    (expression : Expression) : M Expression :=
  match fuel with
  | O => ret expression
  | S fuel' =>
      if lt i numTerms then
        let* operator := choose (operators config) (len (operators config)) in
        let* nextNumber := randomNumber (min config) (max config) in
        let* nextNumber1 :=
          if opIs operator "/" then
            let nextNumber' := Math_max 1 nextNumber in
            let* currentResult := lift (evaluate expression) in
            if negb (strictEq (rem currentResult nextNumber') 0) then
              let* r := Math_random in
              if gt r 0.3 then
                let* d := findDivisor (Math_abs (Math_floor currentResult)) in
                ret (orElse d nextNumber')
              else ret nextNumber'
            else ret nextNumber'
          else ret nextNumber in
        expressionLoop fuel' config numTerms (i + 1)%float
          {| first := first expression;
             rest := rest expression ++ [(text operator, nextNumber1)] |}
      else ret expression
  end.

Definition generateArithmeticExpression (config : Config) (numTerms : float)
    : M Expression :=
  let* n := randomNumber (min config) (max config) in
  expressionLoop (Z.to_nat (toZ numTerms)) config numTerms 1
    {| first := n; rest := [] |}.

(** The [while (!hasValidAnswer && attempts < 20)] loop of
    [generateArithmetic]; [fuel] is [20 - attempts]. *)
Fixpoint arithmeticLoop (fuel : nat) (config : Config) (numTerms : float)
    (expression : string) (answer : float) : M (string * float) :=
  match fuel with
  | O => ret (expression, answer)
  | S fuel' =>
      let* e := generateArithmeticExpression config numTerms in
      match evaluate e with
      | Normal result =>
          if isValidAnswer result
          then ret (render e, (Math_round (result * 100) / 100)%float)
          else arithmeticLoop fuel' config numTerms (render e) answer
      | Throw => arithmeticLoop fuel' config numTerms (render e) answer
      end
  end.

Definition generateArithmetic (difficulty : Difficulty) : M Draft :=
  let config := DIFFICULTY_CONFIG difficulty in
  let* r := Math_random in
  let numTerms := (Math_floor (r * (maxTerms config - 1)) + 2)%float in
  let* ea := arithmeticLoop 20 config numTerms "" 0 in
  ret {| problem := "Calculate: " +:+ fst ea; answer := snd ea;
         difficulty := difficulty |}.

Definition generateAlgebra (difficulty : Difficulty) : M Draft :=
  let lo := 1%float in
  let hi := match difficulty with easy => 20 | medium => 50 | hard => 100 end%float in
  let* a := randomNumber lo hi in
  let* b := randomNumber lo hi in
  let* x := randomNumber lo hi in
  let expressions :=
    [ ("If " +:+ str a +:+ "x + " +:+ str b +:+ " = " +:+ str (a * x + b)%float
         +:+ ", find x", x);
      ("Solve for x: " +:+ str a +:+ "x - " +:+ str b +:+ " = "
         +:+ str (a * x - b)%float, x);
      ("What is x when " +:+ str a +:+ "(x + " +:+ str b +:+ ") = "
         +:+ str (a * (x + b))%float +:+ "?", x);
      ("Find x: " +:+ str a +:+ "x = " +:+ str (a * x)%float, x) ] in
  let* selected := choose expressions (len expressions) in
  match selected with
  | None =>
      ret {| problem := "Calculate: " +:+ str a +:+ " + " +:+ str b;
             answer := (a + b)%float; difficulty := difficulty |}
  | Some sel =>
      ret {| problem := fst sel; answer := snd sel; difficulty := difficulty |}
  end.

Definition generateFractions (difficulty : Difficulty) : M Draft :=
  let maxDenom := match difficulty with easy => 10 | medium => 20 | hard => 50 end%float in
  let* num1 := randomNumber 1 (maxDenom - 1)%float in
  let* den1 := randomNumber (num1 + 1)%float maxDenom in
  let* num2 := randomNumber 1 (maxDenom - 1)%float in
  let* den2 := randomNumber (num2 + 1)%float maxDenom in
  let operations := ["+"; "-"] in
  let* op := choose operations (len operations) in
  let result :=
    if opIs op "+"
    then ((num1 * den2 + num2 * den1) / (den1 * den2))%float
    else ((num1 * den2 - num2 * den1) / (den1 * den2))%float in
  let result1 := (Math_round (result * 1000) / 1000)%float in
  ret {| problem := "Calculate: " +:+ str num1 +:+ "/" +:+ str den1 +:+ " " +:+ text op
                    +:+ " " +:+ str num2 +:+ "/" +:+ str den2 +:+ " (as decimal)";
         answer := result1; difficulty := difficulty |}.

Definition generatePercentages (difficulty : Difficulty) : M Draft :=
  let* base := randomNumber 50 1000 in
  let* percentage := randomNumber 5 95 in
  let types :=
    [ ("What is " +:+ str percentage +:+ "% of " +:+ str base +:+ "?",
       (Math_round (((base * percentage) / 100) * 100) / 100)%float);
      (str base +:+ " is what percent of "
         +:+ str (Math_round ((base * 100) / percentage)%float) +:+ "?",
       percentage) ] in
  let* selected := choose types (len types) in
  match selected with
  | None =>
      ret {| problem := "What is " +:+ str percentage +:+ "% of " +:+ str base +:+ "?";
             answer := (Math_round (((base * percentage) / 100) * 100) / 100)%float;
             difficulty := difficulty |}
  | Some sel =>
      ret {| problem := fst sel; answer := snd sel; difficulty := difficulty |}
  end.

Definition generatePowers (difficulty : Difficulty) : M Draft :=
  let maxBase := match difficulty with easy => 10 | medium => 15 | hard => 20 end%float in
  let maxPower := match difficulty with easy => 3 | medium => 4 | hard => 5 end%float in
  let* base := randomNumber 2 maxBase in
  let* power := randomNumber 2 maxPower in
  let result := Math_pow base power in
  let plain :=
    {| problem := "Calculate: " +:+ str base +:+ "^" +:+ str power;
       answer := result; difficulty := difficulty |} in
  if gt result 10000 then
    let* num := randomNumber 4 100 in
    let sqrt := Math_sqrt num in
    if Number_isInteger sqrt
    then ret {| problem := "What is âˆš" +:+ str num +:+ "?"; answer := sqrt;
                difficulty := difficulty |}
    else ret plain
  else ret plain.

(** The six templates of [generateMixed], each with the value mathjs
    gives its text; no template can fail to evaluate, so the [catch] of the
    source has no counterpart. *)
Definition generateMixed (difficulty : Difficulty) : M Draft :=
  let config := DIFFICULTY_CONFIG difficulty in
  let top := Math_min (max config) 50 in
  let* a := randomNumber (min config) top in
  let* b := randomNumber (min config) top in
  let* c := randomNumber (min config) top in
  let expressions :=
    [ ("(" +:+ str a +:+ " + " +:+ str b +:+ ") * " +:+ str c, ((a + b) * c)%float);
      (str a +:+ " * (" +:+ str b +:+ " + " +:+ str c +:+ ")", (a * (b + c))%float);
      ("(" +:+ str a +:+ " + " +:+ str b +:+ ") / " +:+ str c, ((a + b) / c)%float);
      (str a +:+ " + " +:+ str b +:+ " * " +:+ str c, (a + b * c)%float);
      (str a +:+ " * " +:+ str b +:+ " - " +:+ str c, (a * b - c)%float);
      ("(" +:+ str a +:+ " - " +:+ str b +:+ ") + " +:+ str c +:+ " * 2",
       ((a - b) + c * 2)%float) ] in
  let* expression := choose expressions (len expressions) in
  match expression with
  | None =>
      ret {| problem := "Calculate: " +:+ str a +:+ " + " +:+ str b;
             answer := (a + b)%float; difficulty := difficulty |}
  | Some ev =>
      ret {| problem := "Calculate: " +:+ fst ev;
             answer := (Math_round (snd ev * 100) / 100)%float;
             difficulty := difficulty |}
  end.

Definition getRandomQuestionType (difficulty : Difficulty) : M string :=
  let n := match difficulty with
           | easy => 2%float
           | medium => 4%float
           | hard => len QUESTION_TYPES
           end in
  let* t := choose QUESTION_TYPES n in
  ret (match t with Some ty => ty | None => "arithmetic" end).

Definition generateQuestionByType (type : string) (difficulty : Difficulty) : M Draft :=
  if String.eqb type "arithmetic" then generateArithmetic difficulty
  else if String.eqb type "algebra" then generateAlgebra difficulty
  else if String.eqb type "fractions" then generateFractions difficulty
  else if String.eqb type "percentages" then generatePercentages difficulty
  else if String.eqb type "powers" then generatePowers difficulty
  else if String.eqb type "mixed" then generateMixed difficulty
  else generateArithmetic difficulty.

(** [this.questionCounter++] followed by [`${uuidv4()}-${this.questionCounter}`] *)
Definition nextId : M string :=
  modify (fun s => setQuestionCounter (questionCounter s + 1) s) ;;;
  let* u := uuidv4 in
  let* s := get in
  ret (u +:+ "-" +:+ str (ofZ (questionCounter s))).

Definition generateSimpleArithmetic (difficulty : Difficulty) (now : Z) : M Question :=
  let config := DIFFICULTY_CONFIG difficulty in
  let* a := randomNumber (min config) (max config) in
  let* b := randomNumber (min config) (max config) in
  let operators := ["+"; "-"; "*"] in
  let* op := choose operators (len operators) in
  let result :=
    if opIs op "+" then (a + b)%float
    else if opIs op "-" then (a - b)%float
    else if opIs op "*" then (a * b)%float
    else (a + b)%float in
  let* i := nextId in
  ret {| id := i;
         body := {| problem := "Calculate: " +:+ str a +:+ " " +:+ text op +:+ " " +:+ str b;
                    answer := result; difficulty := difficulty |};
         createdAt := now |}.

Definition questionKey (question : Draft) : string :=
  problem question +:+ "-" +:+ str (answer question).

(** What an accepted attempt does to [generatedQuestions]: add the key,
    and cut the set down to its last 100 entries once it holds more than
    150. *)
Definition remember (key : string) (seen : list string) : list string :=
  let seen1 := Set_add key seen in
  if (150 <? length seen1)%nat then Set_of (slice_last 100 seen1) else seen1.

(** One pass of the [try] block of [generateQuestion]: [Some] question when
    the attempt is accepted, [None] when the candidate is a recent repeat. *)
Definition attempt (difficulty : Difficulty) (now : Z) : M (option Question) :=
  let* questionType := getRandomQuestionType difficulty in
  let* question := generateQuestionByType questionType difficulty in
  let key := questionKey question in
  let* s := get in
  if negb (Set_has key (generatedQuestions s)) || (100 <? length (generatedQuestions s))%nat
  then
    modify (fun s => setGeneratedQuestions (remember key (generatedQuestions s)) s) ;;;
    let* i := nextId in
    ret (Some {| id := i; body := question; createdAt := now |})
  else ret None.

(** The [while (attempts < maxAttempts)] loop; [fuel] is
    [maxAttempts - attempts]. A throw inside the [try] is caught and counts
    as a failed attempt. *)
Fixpoint attempts (fuel : nat) (difficulty : Difficulty) (now : Z) : M Question :=
  match fuel with
  | O => generateSimpleArithmetic difficulty now
  | S fuel' =>
      let* r := tryCatch (attempt difficulty now) (ret None) in
      match r with
      | Some q => ret q
      | None => attempts fuel' difficulty now
      end
  end.

Definition maxAttempts : nat := 50.

Definition generateQuestion (difficulty : Difficulty) (now : Z) : M Question :=
  attempts maxAttempts difficulty now.

Definition resetQuestionHistory : M unit :=
  modify (fun s => setQuestionCounter 0 (setGeneratedQuestions [] s)).

(** The [for (let i = 0; i < count; i++)] loop of [generateQuestionSet], for
    a [count] that is a natural number; [remaining] is [count - i]. *)
Fixpoint questionSetLoop (remaining : nat) (difficulty : Difficulty) (now : Z)
    (questions : list Question) : M (list Question) :=
  match remaining with
  | O => ret questions
  | S remaining' =>
      let* q := generateQuestion difficulty now in
      questionSetLoop remaining' difficulty now (questions ++ [q])
  end.

Definition generateQuestionSet (count : nat) (difficulty : Difficulty) (now : Z)
    : M (list Question) :=
  questionSetLoop count difficulty now [].

End QuestionGenerator.

(* ===================================================================== *)
(** * GameService *)
(* ===================================================================== *)

Module GameService.

(** Truthiness of an object-or-null value. *)
Definition truthy {A} (o : option A) : bool :=
  match o with Some _ => true | None => false end.

(** [GameState.winner] *)
Record Winner := {
  w_userId : string;
  w_username : string;
  w_submissionTime : Z
}.

Record GameState := {
  currentQuestion : option Question;
  isActive : bool;
  startTime : option Z;
  winner : option Winner;
  participants : gset string
}.

Record SubmissionResult := {
  isCorrect : bool;
  isWinner : bool;
  submissionTime : Z;
  timeTaken : Z
}.

Record SocketUser := {
  u_id : string;
  u_username : string;
  u_socketId : string
}.

(** The fields of the instance. A callback is a collaborator: only whether
    one is registered matters here, and calling it is an [Effect]. *)
Record Service := {
  gameState : GameState;
  connectedUsers : gmap string SocketUser;
  submissionLock : bool;
  currentDifficulty : Difficulty;
  questionChangeCallback : bool;
  winnerAnnouncementCallback : bool
}.

(** What a method does to the outside, in order; [console.log] lines are
    left out, [console.error] lines are kept. *)
Inductive Effect :=
| ScoreUpdate (username : string) (totalScore : Z)
    (* UserModel.findOneAndUpdate({ username }, { $inc: ... }, { upsert }) *)
| WinnerAnnounced (userId username : string) (timeTaken : Z) (correctAnswer : float)
| QuestionChanged (question : Question) (snapshot : GameState)
| SetTimeout (ms : Z)
    (* setTimeout(() => this.startNewQuestion(), ms) *)
| LogError (message : string).

(** The locals of [submitAnswer] that are live across its [await]. *)
Record Suspended := {
  p_userId : string;
  p_username : string;
  p_submissionTime : Z;
  p_timeTaken : Z
}.

(** The synchronous prefix of [submitAnswer] ends in a [return] or at the
    [await]. *)
Inductive Outcome :=
| Returned (r : SubmissionResult)
| Awaiting (p : Suspended).

(** How the promise of [UserModel.findOneAndUpdate] settles. *)
Inductive DbOutcome := Resolved | Rejected.

Definition setGameState (g : GameState) (s : Service) : Service :=
  {| gameState := g; connectedUsers := connectedUsers s;
     submissionLock := submissionLock s; currentDifficulty := currentDifficulty s;
     questionChangeCallback := questionChangeCallback s;
     winnerAnnouncementCallback := winnerAnnouncementCallback s |}.

Definition setConnectedUsers (m : gmap string SocketUser) (s : Service) : Service :=
  {| gameState := gameState s; connectedUsers := m;
     submissionLock := submissionLock s; currentDifficulty := currentDifficulty s;
     questionChangeCallback := questionChangeCallback s;
     winnerAnnouncementCallback := winnerAnnouncementCallback s |}.

Definition setSubmissionLock (b : bool) (s : Service) : Service :=
  {| gameState := gameState s; connectedUsers := connectedUsers s;
     submissionLock := b; currentDifficulty := currentDifficulty s;
     questionChangeCallback := questionChangeCallback s;
     winnerAnnouncementCallback := winnerAnnouncementCallback s |}.

Definition setCurrentDifficulty (d : Difficulty) (s : Service) : Service :=
  {| gameState := gameState s; connectedUsers := connectedUsers s;
     submissionLock := submissionLock s; currentDifficulty := d;
     questionChangeCallback := questionChangeCallback s;
     winnerAnnouncementCallback := winnerAnnouncementCallback s |}.

Definition setWinner (w : option Winner) (g : GameState) : GameState :=
  {| currentQuestion := currentQuestion g; isActive := isActive g;
     startTime := startTime g; winner := w; participants := participants g |}.

Definition setIsActive (b : bool) (g : GameState) : GameState :=
  {| currentQuestion := currentQuestion g; isActive := b;
     startTime := startTime g; winner := winner g; participants := participants g |}.

Definition setParticipants (ps : gset string) (g : GameState) : GameState :=
  {| currentQuestion := currentQuestion g; isActive := isActive g;
     startTime := startTime g; winner := winner g; participants := ps |}.

(** The state the constructor builds; it also arms a 1000 ms timer for the
    first [startNewQuestion]. *)
Definition constructor : Service * list Effect :=
  ({| gameState := {| currentQuestion := None; isActive := false; startTime := None;
                      winner := None; participants := ∅ |};
      connectedUsers := ∅;
      submissionLock := false;
      currentDifficulty := medium;
      questionChangeCallback := false;
      winnerAnnouncementCallback := false |},
   [SetTimeout 1000]).

Definition setQuestionChangeCallback (s : Service) : Service :=
  {| gameState := gameState s; connectedUsers := connectedUsers s;
     submissionLock := submissionLock s; currentDifficulty := currentDifficulty s;
     questionChangeCallback := true;
     winnerAnnouncementCallback := winnerAnnouncementCallback s |}.

Definition setWinnerAnnouncementCallback (s : Service) : Service :=
  {| gameState := gameState s; connectedUsers := connectedUsers s;
     submissionLock := submissionLock s; currentDifficulty := currentDifficulty s;
     questionChangeCallback := questionChangeCallback s;
     winnerAnnouncementCallback := true |}.

Definition getBaseScore (difficulty : Difficulty) : Z :=
  match difficulty with
  | easy => 100
  | medium => 250
  | hard => 500
  end.

(** [updateUserScore] up to its own [await]: the score, and the request
    sent to the score ledger. [baseScore] and [timeBonus] are integers, so
    [Math.floor(baseScore + timeBonus / 1000)] is the integer quotient. *)
Definition updateUserScore (username : string) (timeTaken : Z) (s : Service) : list Effect :=
  let baseScore := getBaseScore (currentDifficulty s) in
  let timeBonus := Z.max 0 (10000 - timeTaken) in
  let totalScore := baseScore + timeBonus / 1000 in
  [ScoreUpdate username totalScore].

(** [updateUserScore] after its [await]: a rejection is caught and logged
    there, so the promise [submitAnswer] awaits always fulfils. *)
Definition updateUserScore_settled (db : DbOutcome) : list Effect :=
  match db with
  | Resolved => []
  | Rejected => [LogError "Error updating user score:"]
  end.

(** [submitAnswer], from the call to its first [return] or to the [await]
    of [updateUserScore]. *)
Definition submitAnswer (userId username : string) (answer : float) (now : Z)
    (s : Service) : Outcome * Service * list Effect :=
  let submissionTime := now in
  let g := gameState s in
  match isActive g, currentQuestion g, startTime g with
  | true, Some question, Some start =>
      let timeTaken := submissionTime - start in
      let expectedAnswer := answerOf question in
      let isCorrect := JS.lt (JS.Math_abs (answer - expectedAnswer)%float) 0.01 in
      if negb isCorrect then
        (Returned {| isCorrect := false; isWinner := false;
                     submissionTime := submissionTime; timeTaken := timeTaken |}, s, [])
      else if submissionLock s || truthy (winner g) then
        (Returned {| isCorrect := true; isWinner := false;
                     submissionTime := submissionTime; timeTaken := timeTaken |}, s, [])
      else
        let s1 := setSubmissionLock true s in
        match winner (gameState s1) with
        | Some _ =>
            (* finally *)
            (Returned {| isCorrect := true; isWinner := false;
                         submissionTime := submissionTime; timeTaken := timeTaken |},
             setSubmissionLock false s1, [])
        | None =>
            let w := {| w_userId := userId; w_username := username;
                        w_submissionTime := submissionTime |} in
            let s2 := setGameState (setIsActive false (setWinner (Some w) (gameState s1))) s1 in
            (Awaiting {| p_userId := userId; p_username := username;
                         p_submissionTime := submissionTime; p_timeTaken := timeTaken |},
             s2, updateUserScore username timeTaken s2)
        end
  | _, _, _ =>
      (Returned {| isCorrect := false; isWinner := false;
                   submissionTime := submissionTime; timeTaken := 0 |}, s, [])
  end.

(** [submitAnswer] from the [await] on, run on the state the service is in
    when the call resumes. Reading [this.gameState.currentQuestion.answer]
    throws when there is no question; the [finally] block runs either way. *)
Definition submitAnswer_resume (p : Suspended) (db : DbOutcome) (s : Service)
    : Completion SubmissionResult * Service * list Effect :=
  let logged := updateUserScore_settled db in
  let released := setSubmissionLock false s in
  let result := {| isCorrect := true; isWinner := true;
                   submissionTime := p_submissionTime p; timeTaken := p_timeTaken p |} in
  if winnerAnnouncementCallback s then
    match currentQuestion (gameState s) with
    | Some question =>
        (Normal result, released,
         logged ++ [WinnerAnnounced (p_userId p) (p_username p) (p_timeTaken p)
                      (answerOf question);
                    SetTimeout 3000])
    | None => (Throw, released, logged)
    end
  else
    (Normal result, released,
     logged ++ [LogError "Winner announcement callback is null!"; SetTimeout 3000]).

Definition adjustDifficulty (s : Service) : Service :=
  let participantCount := size (connectedUsers s) in
  if (participantCount <=? 2)%nat then setCurrentDifficulty easy s
  else if (participantCount <=? 5)%nat then setCurrentDifficulty medium s
  else setCurrentDifficulty hard s.

(** [startNewQuestion]: the service and the generator's static state after
    the call. The keys of [connectedUsers] are socket ids. *)
Definition startNewQuestion (now : Z) (s : Service) (gen : QuestionGenerator.State)
    : Completion unit * Service * QuestionGenerator.State * list Effect :=
  let s1 := adjustDifficulty s in
  match QuestionGenerator.generateQuestion (currentDifficulty s1) now gen with
  | (Normal question, gen') =>
      let g := {| currentQuestion := Some question; isActive := true;
                  startTime := Some now; winner := None;
                  participants := dom (connectedUsers s1) |} in
      let s2 := setSubmissionLock false (setGameState g s1) in
      (Normal tt, s2, gen',
       if questionChangeCallback s2 then [QuestionChanged question g] else [])
  | (Throw, gen') => (Throw, s1, gen', [])
  end.

Definition addUser (socketId userId username : string) (s : Service)
    : Service * list Effect :=
  let users := <[socketId := {| u_id := userId; u_username := username;
                                u_socketId := socketId |}]> (connectedUsers s) in
  let g := setParticipants ({[userId]} ∪ participants (gameState s)) (gameState s) in
  let s1 := setGameState g (setConnectedUsers users s) in
  (s1,
   if (size users =? 1)%nat || negb (truthy (currentQuestion g))
   then [SetTimeout 500] else []).

Definition removeUser (socketId : string) (s : Service) : Service :=
  match connectedUsers s !! socketId with
  | Some user =>
      let g := setParticipants (participants (gameState s) ∖ {[u_id user]}) (gameState s) in
      setGameState g (setConnectedUsers (delete socketId (connectedUsers s)) s)
  | None => s
  end.

Definition getCurrentQuestion (s : Service) : option Question :=
  currentQuestion (gameState s).

Definition getGameState (s : Service) : GameState := gameState s.

Definition getConnectedUsersCount (s : Service) : nat := size (connectedUsers s).

Definition forceNewQuestion (now : Z) (s : Service) (gen : QuestionGenerator.State)
    : Completion unit * Service * QuestionGenerator.State * list Effect :=
  let g := setIsActive false (setWinner None (gameState s)) in
  startNewQuestion now (setSubmissionLock false (setGameState g s)) gen.

End GameService.

(* ===================================================================== *)
(** * The running server *)
(* ===================================================================== *)

(** The process runs one [GameService], the static state of
    [QuestionGenerator], and the [submitAnswer] calls that are suspended
    at their [await]. Execution is single-threaded: each [Action] below
    runs to its end, or to its [await], before the next one starts, and
    suspended calls resume in any order. A timer that fires is a call of
    [startNewQuestion]. *)

Module Server.

Import GameService.

Inductive Action :=
| CallSubmitAnswer (userId username : string) (answer : float) (now : Z)
| ResumeSubmitAnswer (k : nat) (db : DbOutcome)
| CallStartNewQuestion (now : Z)
| CallForceNewQuestion (now : Z)
| CallAddUser (socketId userId username : string)
| CallRemoveUser (socketId : string)
| CallSetQuestionChangeCallback
| CallSetWinnerAnnouncementCallback.

(** [round] counts the calls of [startNewQuestion] so far; a [submitAnswer]
    call belongs to the round in which it was made, and [returned] lists
    the results handed back to callers with the round of their call. *)
Record System := {
  svc : Service;
  gen : QuestionGenerator.State;
  round : nat;
  suspended : list (nat * Suspended);
  returned : list (nat * SubmissionResult)
}.

Definition boot (gen0 : QuestionGenerator.State) : System :=
  {| svc := fst constructor; gen := gen0; round := 0; suspended := []; returned := [] |}.

Definition step (a : Action) (sys : System) : System :=
  match a with
  | CallSubmitAnswer userId username answer now =>
      match submitAnswer userId username answer now (svc sys) with
      | (Returned r, s', _) =>
          {| svc := s'; gen := gen sys; round := round sys;
             suspended := suspended sys;
             returned := returned sys ++ [(round sys, r)] |}
      | (Awaiting p, s', _) =>
          {| svc := s'; gen := gen sys; round := round sys;
             suspended := suspended sys ++ [(round sys, p)];
             returned := returned sys |}
      end
  | ResumeSubmitAnswer k db =>
      match suspended sys !! k with
      | Some (rd, p) =>
          match submitAnswer_resume p db (svc sys) with
          | (Normal r, s', _) =>
              {| svc := s'; gen := gen sys; round := round sys;
                 suspended := delete k (suspended sys);
                 returned := returned sys ++ [(rd, r)] |}
          | (Throw, s', _) =>
              {| svc := s'; gen := gen sys; round := round sys;
                 suspended := delete k (suspended sys);
                 returned := returned sys |}
          end
      | None => sys
      end
  | CallStartNewQuestion now =>
      match startNewQuestion now (svc sys) (gen sys) with
      | (_, s', gen', _) =>
          {| svc := s'; gen := gen'; round := S (round sys);
             suspended := suspended sys; returned := returned sys |}
      end
  | CallForceNewQuestion now =>
      match forceNewQuestion now (svc sys) (gen sys) with
      | (_, s', gen', _) =>
          {| svc := s'; gen := gen'; round := S (round sys);
             suspended := suspended sys; returned := returned sys |}
      end
  | CallAddUser socketId userId username =>
      {| svc := fst (addUser socketId userId username (svc sys)); gen := gen sys;
         round := round sys; suspended := suspended sys; returned := returned sys |}
  | CallRemoveUser socketId =>
      {| svc := removeUser socketId (svc sys); gen := gen sys;
         round := round sys; suspended := suspended sys; returned := returned sys |}
  | CallSetQuestionChangeCallback =>
      {| svc := setQuestionChangeCallback (svc sys); gen := gen sys;
         round := round sys; suspended := suspended sys; returned := returned sys |}
  | CallSetWinnerAnnouncementCallback =>
      {| svc := setWinnerAnnouncementCallback (svc sys); gen := gen sys;
         round := round sys; suspended := suspended sys; returned := returned sys |}
  end.

(** The system after a schedule, earliest action first. *)
Definition run (schedule : list Action) (sys : System) : System :=
  fold_left (fun acc a => step a acc) schedule sys.

(** The number of [submitAnswer] calls of round [r] that have returned
    [isWinner: true]. *)
Definition winnersReturned (r : nat) (sys : System) : nat :=
  length (List.filter (fun x => Nat.eqb (fst x) r && isWinner (snd x)) (returned sys)).

(** Suspended calls of round [r]: each of them has assigned the winner
    record and will return [isWinner: true] when it resumes. *)
Definition winnersSuspended (r : nat) (sys : System) : nat :=
  length (List.filter (fun x => Nat.eqb (fst x) r) (suspended sys)).

End Server.

(* ===================================================================== *)
(** * Vocabulary of the properties *)
(* ===================================================================== *)

(** A round accepts submissions when it is active and has a question and a
    start time. *)
Definition accepting (s : GameService.Service) : bool :=
  GameService.isActive (GameService.gameState s)
  && GameService.truthy (GameService.currentQuestion (GameService.gameState s))
  && GameService.truthy (GameService.startTime (GameService.gameState s)).

(** Whether a call was judged correct: a call that reaches the [await] has
    passed the check and returns [isCorrect: true] when it resumes. *)
Definition judgedCorrect (o : GameService.Outcome) : bool :=
  match o with
  | GameService.Returned r => GameService.isCorrect r
  | GameService.Awaiting _ => true
  end.

(** The difficulty ladder in the words of the specification: at most 2
    participants, easy; at most 5, medium; otherwise hard. *)
Definition ladder (participantCount : nat) : Difficulty :=
  if (participantCount <=? 2)%nat then easy
  else if (participantCount <=? 5)%nat then medium
  else hard.

Definition rank (d : Difficulty) : nat :=
  match d with easy => 0 | medium => 1 | hard => 2 end.

(** Two services that differ at most in the participant set of the round. *)
Definition withParticipants (ps : gset string) (s : GameService.Service)
    : GameService.Service :=
  GameService.setGameState
    (GameService.setParticipants ps (GameService.gameState s)) s.

(** ** A running example

    A server whose first round asks [Calculate: 40 + 2]: both callbacks are
    registered, nobody is connected, and [Math.random] returns 0.1, 0.5,
    0.78, 0.1, 0.02 (type [arithmetic], two terms, 40, [+], 2). *)
Definition demoGen : QuestionGenerator.State :=
  {| QuestionGenerator.entropy :=
       fun n => nth n [0.1; 0.5; 0.78; 0.1; 0.02]%float 0%float;
     QuestionGenerator.drawn := 0;
     QuestionGenerator.uuids := fun _ => "3f2a";
     QuestionGenerator.issued := 0;
     QuestionGenerator.generatedQuestions := [];
     QuestionGenerator.questionCounter := 0 |}.

Definition demoServer : Server.System :=
  Server.run [Server.CallSetQuestionChangeCallback;
              Server.CallSetWinnerAnnouncementCallback;
              Server.CallStartNewQuestion 0]
             (Server.boot demoGen).

(** The tolerance test of [submitAnswer]. *)
Definition withinTolerance (a v : float) : bool :=
  JS.lt (JS.Math_abs (a - v)%float) 0.01.

(** The calls of round [r] that have won: those that have returned
    [isWinner: true], and those suspended at the [await], which return it
    when they resume. *)
Definition winnersOf (r : nat) (sys : Server.System) : nat :=
  (Server.winnersReturned r sys + Server.winnersSuspended r sys)%nat.

(** What holds of the server between any two actions. *)
Record consistent (sys : Server.System) : Prop := {
  one_winner : forall r, (winnersOf r sys <= 1)%nat;
  no_future_winner : forall r, (Server.round sys < r)%nat -> winnersOf r sys = 0%nat;
  winner_recorded :
    GameService.winner (GameService.gameState (Server.svc sys)) = None ->
    winnersOf (Server.round sys) sys = 0%nat;
  active_no_winner :
    GameService.isActive (GameService.gameState (Server.svc sys)) = true ->
    GameService.winner (GameService.gameState (Server.svc sys)) = None;
  lock_held_winner :
    GameService.submissionLock (Server.svc sys) = true ->
    GameService.winner (GameService.gameState (Server.svc sys)) <> None
}.

(** ** Runs of the generator *)

(** A generator that has not produced anything yet. *)
Definition freshGenerator (entropy : nat -> float) (uuids : nat -> string)
    : QuestionGenerator.State :=
  {| QuestionGenerator.entropy := entropy; QuestionGenerator.drawn := 0;
     QuestionGenerator.uuids := uuids; QuestionGenerator.issued := 0;
     QuestionGenerator.generatedQuestions := [];
     QuestionGenerator.questionCounter := 0 |}.

Inductive GeneratorCall :=
| Generate (difficulty : Difficulty) (now : Z)
| ResetHistory.

Definition generatorStep (c : GeneratorCall) (s : QuestionGenerator.State)
    : QuestionGenerator.State :=
  match c with
  | Generate difficulty now => snd (QuestionGenerator.generateQuestion difficulty now s)
  | ResetHistory => snd (QuestionGenerator.resetQuestionHistory s)
  end.

(** The generator after a series of calls, earliest first. *)
Definition generatorRun (calls : list GeneratorCall) (s : QuestionGenerator.State)
    : QuestionGenerator.State :=
  fold_left (fun acc c => generatorStep c acc) calls s.

(** A computation that leaves the set of recent keys alone. *)
Definition keepsHistory {A} (m : QuestionGenerator.M A) : Prop :=
  forall s, QuestionGenerator.generatedQuestions (snd (m s))
            = QuestionGenerator.generatedQuestions s.

(** A computation that completes normally from every state. *)
Definition neverThrows {A} (m : QuestionGenerator.M A) : Prop :=
  forall s, exists a, fst (m s) = Normal a.

(** Every value a computation can return satisfies [P]. *)
Definition returnsOnly {A} (m : QuestionGenerator.M A) (P : A -> Prop) : Prop :=
  forall s a s', m s = (Normal a, s') -> P a.

(** Streams of [Math.random] values used in the examples: a list of draws
    followed by zeros, and [n] repetitions of a list followed by another. *)
Definition draws (l : list float) : nat -> float :=
  fun n => nth n l 0%float.

Definition repeated (times : nat) (l tail : list float) : nat -> float :=
  fun n => if (n <? times * length l)%nat
           then nth (n mod length l) l 0%float
           else nth (n - times * length l) tail 0%float.

(** Draws that make call number [k] (from 0) of an easy generator produce
    the algebra question [If ax + b = c, find x] with [a = k mod 20 + 1],
    [b = (k / 20) mod 20 + 1] and [x = 11]: five draws per call. *)
Definition distinctAlgebra : nat -> float :=
  fun n =>
    let k := (n / 5)%nat in
    let slot j := (JS.ofZ (Z.of_nat j) / 20 + 0.01)%float in
    match (n mod 5)%nat with
    | 0%nat => 0.6%float
    | 1%nat => slot (k mod 20)%nat
    | 2%nat => slot ((k / 20) mod 20)%nat
    | 3%nat => 0.5%float
    | _ => 0.1%float
    end.

(** ** More vocabulary: the service between actions *)

(** What else holds of the server between any two actions: a round that is
    active has its question and start time, question and difficulty agree,
    and lock and suspended calls go together. *)
Record settled (sys : Server.System) : Prop := {
  active_has_question :
    GameService.isActive (GameService.gameState (Server.svc sys)) = true ->
    GameService.truthy (GameService.currentQuestion (GameService.gameState (Server.svc sys)))
    = true
    /\ GameService.truthy (GameService.startTime (GameService.gameState (Server.svc sys)))
       = true;
  question_difficulty :
    forall q,
      GameService.currentQuestion (GameService.gameState (Server.svc sys)) = Some q ->
      difficultyOf q = GameService.currentDifficulty (Server.svc sys);
  suspended_has_question :
    Server.suspended sys <> [] ->
    GameService.currentQuestion (GameService.gameState (Server.svc sys)) <> None;
  lock_has_suspended :
    GameService.submissionLock (Server.svc sys) = true -> Server.suspended sys <> []
}.

(** The score the ledger is asked to add for a win. *)
Definition scoreFor (difficulty : Difficulty) (timeTaken : Z) : Z :=
  GameService.getBaseScore difficulty + Z.max 0 (10000 - timeTaken) / 1000.

(** ** More vocabulary: the generator *)

(** Everything in the generator's state but the number of random draws
    used so far. *)
Definition apartFromDraws (s : QuestionGenerator.State) :=
  (QuestionGenerator.entropy s, QuestionGenerator.uuids s, QuestionGenerator.issued s,
   QuestionGenerator.generatedQuestions s, QuestionGenerator.questionCounter s).

(** A computation that only consumes random draws. *)
Definition onlyDraws {A} (m : QuestionGenerator.M A) : Prop :=
  forall s, apartFromDraws (snd (m s)) = apartFromDraws s.

(** What [generateQuestion] does to the state besides the draws and the
    set of recent keys: one more question counted, one more uuid used. *)
Definition countedOnce (s s' : QuestionGenerator.State) : Prop :=
  QuestionGenerator.entropy s' = QuestionGenerator.entropy s
  /\ QuestionGenerator.uuids s' = QuestionGenerator.uuids s
  /\ QuestionGenerator.issued s' = S (QuestionGenerator.issued s)
  /\ QuestionGenerator.questionCounter s' = QuestionGenerator.questionCounter s + 1.

(** The id and the timestamp [generateQuestion] gives a question produced
    from state [s] at time [now]. *)
Definition stamped (s : QuestionGenerator.State) (now : Z) (q : Question) : Prop :=
  id q = QuestionGenerator.uuids s (QuestionGenerator.issued s) +:+ "-"
         +:+ JS.Number_toString (JS.ofZ (QuestionGenerator.questionCounter s + 1))
  /\ createdAt q = now.

(* ===================================================================== *)
(** * Routes (routes/gameRoutes.ts) *)
(* ===================================================================== *)

Module GameRoutes.

(** [Math.min(parseInt(req.query["limit"]) || 10, 50)] of the leaderboard
    route. [parseInt] gives an integer or NaN; [parsed] is that integer,
    [None] for NaN. *)
Definition leaderboardLimit (parsed : option Z) : Z :=
  Z.min (match parsed with
         | Some n => if n =? 0 then 10 else n
         | None => 10
         end) 50.

(** The body of the response of [GET /stats]. *)
Record StatsResponse := {
  connectedUsers : nat;
  isGameActive : bool;
  hasActiveQuestion : bool;
  currentWinner : option string;
  participants : nat
}.

Definition stats (s : GameService.Service) : StatsResponse :=
  let gameState := GameService.getGameState s in
  {| connectedUsers := GameService.getConnectedUsersCount s;
     isGameActive := GameService.isActive gameState;
     hasActiveQuestion := GameService.truthy (GameService.currentQuestion gameState);
     currentWinner :=
       (* [gameState.winner?.username || null] *)
       match GameService.winner gameState with
       | Some w => if String.eqb (GameService.w_username w) "" then None
                   else Some (GameService.w_username w)
       | None => None
       end;
     participants := size (GameService.participants gameState) |}.

End GameRoutes.

(** ** More vocabulary: the attempts of one call *)

(** The candidate one attempt of [generateQuestion] draws, before the test
    against the set of recent keys. *)
Definition candidate (difficulty : Difficulty) : QuestionGenerator.M Draft :=
  QuestionGenerator.bind (QuestionGenerator.getRandomQuestionType difficulty)
    (fun questionType =>
       QuestionGenerator.generateQuestionByType questionType difficulty).

(** The generator after [n] attempts in a row that were all rejected (the
    candidate a recent repeat, or a throw caught by the loop); [None] when
    one of them was accepted. *)
Fixpoint afterRejected (n : nat) (difficulty : Difficulty) (now : Z)
    (s : QuestionGenerator.State) : option QuestionGenerator.State :=
  match n with
  | O => Some s
  | S n' =>
      match QuestionGenerator.attempt difficulty now s with
      | (Normal (Some _), _) => None
      | (_, s1) => afterRejected n' difficulty now s1
      end
  end.

(* ===================================================================== *)
(** * Properties of the session controller *)
(* ===================================================================== *)

Section SubmitAnswer.

Import GameService.

Variables (userId username : string) (answer : float) (now : Z).

Lemma submitAnswer_closed s :
  accepting s = false ->
  submitAnswer userId username answer now s =
    (Returned {| isCorrect := false; isWinner := false;
                 submissionTime := now; timeTaken := 0 |}, s, []).
Proof.
  unfold accepting, submitAnswer.
  destruct (isActive (gameState s)), (currentQuestion (gameState s)),
    (startTime (gameState s)); simpl; congruence.
Qed.

(** The three ways [submitAnswer] ends in an accepting round. *)
Lemma submitAnswer_open s question start :
  isActive (gameState s) = true ->
  currentQuestion (gameState s) = Some question ->
  startTime (gameState s) = Some start ->
  let correct := JS.lt (JS.Math_abs (answer - answerOf question)%float) 0.01 in
  submitAnswer userId username answer now s =
    if negb correct then
      (Returned {| isCorrect := false; isWinner := false;
                   submissionTime := now; timeTaken := now - start |}, s, [])
    else if submissionLock s || truthy (winner (gameState s)) then
      (Returned {| isCorrect := true; isWinner := false;
                   submissionTime := now; timeTaken := now - start |}, s, [])
    else
      let w := {| w_userId := userId; w_username := username;
                  w_submissionTime := now |} in
      let s2 := setGameState (setIsActive false (setWinner (Some w) (gameState s)))
                  (setSubmissionLock true s) in
      (Awaiting {| p_userId := userId; p_username := username;
                   p_submissionTime := now; p_timeTaken := now - start |},
       s2, updateUserScore username (now - start) s2).
Proof.
  intros Ha Hq Hs correct. unfold submitAnswer.
  rewrite Ha, Hq, Hs. fold correct.
  destruct correct; simpl; [|reflexivity].
  destruct (submissionLock s); simpl; [reflexivity|].
  destruct (winner (gameState s)) eqn:Hw; simpl; [reflexivity|].
  try rewrite Hw. reflexivity.
Qed.

End SubmitAnswer.

(** C6. A call of [submitAnswer] made while no round is active (the active
    flag is off, or there is no current question, or no start time)
    returns [{isCorrect: false, isWinner: false, timeTaken: 0}] as an
    ordinary result, at once and without any effect, and leaves the service
    as it was. *)
Theorem submitAnswer_no_active_round :
  forall userId username answer now (s : GameService.Service),
    GameService.isActive (GameService.gameState s) = false \/
    GameService.currentQuestion (GameService.gameState s) = None \/
    GameService.startTime (GameService.gameState s) = None ->
    GameService.submitAnswer userId username answer now s =
      (GameService.Returned
         {| GameService.isCorrect := false; GameService.isWinner := false;
            GameService.submissionTime := now; GameService.timeTaken := 0 |},
       s, []).
Proof.
  intros userId username answer now s H.
  apply submitAnswer_closed. unfold accepting.
  destruct H as [-> | [-> | ->]]; simpl.
  - reflexivity.
  - apply andb_false_intro1, andb_false_intro2. reflexivity.
  - apply andb_false_intro2. reflexivity.
Qed.

Lemma submitAnswer_no_active_round_witness :
  GameService.isActive (GameService.gameState (fst GameService.constructor)) = false /\
  GameService.submitAnswer "u1" "alice" 42 1000 (fst GameService.constructor) =
    (GameService.Returned
       {| GameService.isCorrect := false; GameService.isWinner := false;
          GameService.submissionTime := 1000; GameService.timeTaken := 0 |},
     fst GameService.constructor, []).
Proof.
  split; [reflexivity|].
  apply (submitAnswer_no_active_round "u1" "alice" 42%float 1000
           (fst GameService.constructor)).
  left. reflexivity.
Defined.

(** ** The tolerance of the correctness check *)

(** C5 (as amended). In an accepting round whose question has answer [v], a
    submitted [a] is judged correct exactly when the binary64 difference
    [|a - v|] compares strictly below the binary64 constant [0.01]. For
    [v = 42] the submission [41.995] is accepted, and so is [42.01]: the
    double nearest to 42.01 lies below it, and the difference computed is
    0.00999999999999801. The comparison is strict: a difference computed as
    exactly [0.01] (the answer [0.01] against [v = 0]) is rejected, as is
    [42.02] against 42. *)
Theorem submitAnswer_tolerance :
  (forall userId username a now (s : GameService.Service) question start,
     GameService.isActive (GameService.gameState s) = true ->
     GameService.currentQuestion (GameService.gameState s) = Some question ->
     GameService.startTime (GameService.gameState s) = Some start ->
     judgedCorrect (fst (fst (GameService.submitAnswer userId username a now s)))
     = withinTolerance a (answerOf question))
  /\ withinTolerance 41.995 42 = true
  /\ withinTolerance 42.01 42 = true
  /\ (42.01 - 42 = 0.0099999999999980105)%float
  /\ withinTolerance 0.01 0 = false
  /\ withinTolerance 42.02 42 = false.
Proof.
  split; [|split_and!; vm_compute; reflexivity].
  intros userId username a now s question start Ha Hq Hs.
  rewrite (submitAnswer_open userId username a now s question start Ha Hq Hs).
  unfold withinTolerance. simpl.
  destruct (JS.lt _ _); simpl; [|reflexivity].
  destruct (_ || _); reflexivity.
Qed.

Lemma submitAnswer_tolerance_witness :
  GameService.isActive (GameService.gameState (Server.svc demoServer)) = true /\
  judgedCorrect
    (fst (fst (GameService.submitAnswer "u1" "alice" 41.995 1500 (Server.svc demoServer))))
  = withinTolerance 41.995 42.
Proof.
  split; [reflexivity|].
  exact (proj1 submitAnswer_tolerance "u1" "alice" 41.995%float 1500
           (Server.svc demoServer)
           {| id := "3f2a-1";
              body := {| problem := "Calculate: 40 + 2"; answer := 42;
                         difficulty := easy |};
              createdAt := 0 |}
           0 eq_refl eq_refl eq_refl).
Defined.

(** The claim as it was written fails at the boundary example: with the
    round's answer 42, the submission 42.01 is judged correct (and wins). *)
Lemma submitAnswer_tolerance_counterexample :
  GameService.currentQuestion (GameService.gameState (Server.svc demoServer))
  = Some {| id := "3f2a-1";
            body := {| problem := "Calculate: 40 + 2"; answer := 42;
                       difficulty := easy |};
            createdAt := 0 |}
  /\ fst (fst (GameService.submitAnswer "u1" "alice" 42.01 1500 (Server.svc demoServer)))
     = GameService.Awaiting
         {| GameService.p_userId := "u1"; GameService.p_username := "alice";
            GameService.p_submissionTime := 1500; GameService.p_timeTaken := 1500 |}
  /\ judgedCorrect
       (fst (fst (GameService.submitAnswer "u1" "alice" 42.01 1500 (Server.svc demoServer))))
     = true.
Proof. split_and!; vm_compute; reflexivity. Qed.

(** ** One winner per round *)

Section Counting.

Context {A : Type} (f : A -> bool).

Lemma count_app (l1 l2 : list A) :
  length (List.filter f (l1 ++ l2))
  = (length (List.filter f l1) + length (List.filter f l2))%nat.
Proof. rewrite List.filter_app, length_app. reflexivity. Qed.

Lemma count_delete (l : list A) : forall k x,
  l !! k = Some x ->
  length (List.filter f l)
  = (length (List.filter f (delete k l)) + (if f x then 1 else 0))%nat.
Proof.
  induction l as [|y l IH]; intros k x Hk; [discriminate Hk|].
  destruct k as [|k]; simpl in *.
  - injection Hk as ->. destruct (f x); simpl; lia.
  - specialize (IH k x Hk). destruct (f y); simpl; lia.
Qed.

End Counting.

Section ServiceSteps.

Import GameService.

Lemma submitAnswer_returned userId username answer now s r s' effects :
  submitAnswer userId username answer now s = (Returned r, s', effects) ->
  isWinner r = false /\ gameState s' = gameState s
  /\ (submissionLock s' = true -> submissionLock s = true).
Proof.
  unfold submitAnswer.
  destruct (isActive (gameState s)), (currentQuestion (gameState s)),
    (startTime (gameState s)); try (intros [= <- <- _]; auto).
  destruct (negb _); [intros [= <- <- _]; auto|].
  destruct (submissionLock s || truthy (winner (gameState s)));
    [intros [= <- <- _]; auto|].
  simpl. destruct (winner (gameState s)); [|discriminate].
  intros [= <- <- _]. repeat split; auto. simpl. discriminate.
Qed.

Lemma submitAnswer_awaiting userId username answer now s p s' effects :
  submitAnswer userId username answer now s = (Awaiting p, s', effects) ->
  winner (gameState s) = None
  /\ winner (gameState s')
     = Some {| w_userId := userId; w_username := username; w_submissionTime := now |}
  /\ isActive (gameState s') = false.
Proof.
  unfold submitAnswer.
  destruct (isActive (gameState s)), (currentQuestion (gameState s)),
    (startTime (gameState s)); try discriminate.
  destruct (negb _); [discriminate|].
  destruct (submissionLock s); simpl; [discriminate|].
  destruct (winner (gameState s)) eqn:Hw; simpl; [discriminate|].
  try rewrite Hw. intros [= _ <- _]. auto.
Qed.

Lemma submitAnswer_resume_gameState p db s :
  gameState (snd (fst (submitAnswer_resume p db s))) = gameState s
  /\ submissionLock (snd (fst (submitAnswer_resume p db s))) = false.
Proof.
  unfold submitAnswer_resume.
  destruct (winnerAnnouncementCallback s);
    [destruct (currentQuestion (gameState s))|]; split; reflexivity.
Qed.

Lemma submitAnswer_resume_isWinner p db s r s' effects :
  submitAnswer_resume p db s = (Normal r, s', effects) -> isWinner r = true.
Proof.
  unfold submitAnswer_resume.
  destruct (winnerAnnouncementCallback s);
    [destruct (currentQuestion (gameState s))|]; intros [= <- _ _]; reflexivity.
Qed.

Lemma adjustDifficulty_gameState s :
  gameState (adjustDifficulty s) = gameState s
  /\ submissionLock (adjustDifficulty s) = submissionLock s.
Proof.
  unfold adjustDifficulty.
  destruct (_ <=? 2)%nat; [split; reflexivity|].
  destruct (_ <=? 5)%nat; split; reflexivity.
Qed.

(** After [startNewQuestion] either a fresh round is in place, or (had the
    generator thrown) round and lock are as they were. *)
Lemma startNewQuestion_gameState now s gen :
  let s' := snd (fst (fst (startNewQuestion now s gen))) in
  (winner (gameState s') = None /\ submissionLock s' = false)
  \/ (gameState s' = gameState s /\ submissionLock s' = submissionLock s).
Proof.
  unfold startNewQuestion.
  destruct (QuestionGenerator.generateQuestion _ now gen) as [[question|] gen'];
    simpl.
  - left. split; reflexivity.
  - right. apply adjustDifficulty_gameState.
Qed.

Lemma forceNewQuestion_winner now s gen :
  let s' := snd (fst (fst (forceNewQuestion now s gen))) in
  winner (gameState s') = None /\ submissionLock s' = false.
Proof.
  unfold forceNewQuestion.
  match goal with
  | |- context [startNewQuestion now ?s0 gen] =>
      destruct (startNewQuestion_gameState now s0 gen) as [H | [H1 H2]]
  end.
  - exact H.
  - simpl. rewrite H1, H2. split; reflexivity.
Qed.

Lemma addUser_round socketId userId username s :
  winner (gameState (fst (addUser socketId userId username s))) = winner (gameState s)
  /\ isActive (gameState (fst (addUser socketId userId username s)))
     = isActive (gameState s).
Proof. split; reflexivity. Qed.

Lemma removeUser_round socketId s :
  winner (gameState (removeUser socketId s)) = winner (gameState s)
  /\ isActive (gameState (removeUser socketId s)) = isActive (gameState s)
  /\ submissionLock (removeUser socketId s) = submissionLock s.
Proof.
  unfold removeUser.
  destruct (connectedUsers s !! socketId); repeat split; reflexivity.
Qed.

End ServiceSteps.

Section ServerInvariant.

Import GameService Server.

Lemma boot_consistent gen0 : consistent (boot gen0).
Proof.
  split; unfold winnersOf, winnersReturned, winnersSuspended, boot; simpl;
    intros; auto; discriminate.
Qed.

Lemma winnersOf_eq r sys sys' :
  returned sys' = returned sys -> suspended sys' = suspended sys ->
  winnersOf r sys' = winnersOf r sys.
Proof.
  intros Hr Hs. unfold winnersOf, winnersReturned, winnersSuspended.
  rewrite Hr, Hs. reflexivity.
Qed.

(** A step that touches neither the calls nor the round record. *)
Lemma consistent_frame sys sys' :
  consistent sys ->
  returned sys' = returned sys -> suspended sys' = suspended sys ->
  round sys' = round sys ->
  winner (gameState (svc sys')) = winner (gameState (svc sys)) ->
  isActive (gameState (svc sys')) = isActive (gameState (svc sys)) ->
  submissionLock (svc sys') = submissionLock (svc sys) ->
  consistent sys'.
Proof.
  intros [I1 I2 I3 I4 I5] Hr Hs Hn Hw Ha Hl. split.
  - intros r. rewrite (winnersOf_eq r _ _ Hr Hs). apply I1.
  - intros r Hlt. rewrite (winnersOf_eq r _ _ Hr Hs). apply I2. lia.
  - intros Hnone. rewrite Hn, (winnersOf_eq _ _ _ Hr Hs). apply I3. congruence.
  - intros Hact. rewrite Hw. apply I4. congruence.
  - rewrite Hw, Hl. exact I5.
Qed.

(** A step that begins a round: the winner record is cleared, or the round
    record is the one before. *)
Lemma consistent_new_round sys sys' :
  consistent sys ->
  returned sys' = returned sys -> suspended sys' = suspended sys ->
  round sys' = S (round sys) ->
  (winner (gameState (svc sys')) = None /\ submissionLock (svc sys') = false)
  \/ (gameState (svc sys') = gameState (svc sys)
      /\ submissionLock (svc sys') = submissionLock (svc sys)) ->
  consistent sys'.
Proof.
  intros [I1 I2 I3 I4 I5] Hr Hs Hn Hw. split.
  - intros r. rewrite (winnersOf_eq r _ _ Hr Hs). apply I1.
  - intros r Hlt. rewrite (winnersOf_eq r _ _ Hr Hs). apply I2. lia.
  - intros _. rewrite Hn, (winnersOf_eq _ _ _ Hr Hs). apply I2. lia.
  - intros Hact. destruct Hw as [[Hw _] | [Hw _]]; [exact Hw|].
    rewrite Hw in *. apply I4. exact Hact.
  - destruct Hw as [[_ Hl] | [Hw Hl]].
    + rewrite Hl. discriminate.
    + rewrite Hw, Hl. exact I5.
Qed.

Lemma step_consistent a sys : consistent sys -> consistent (step a sys).
Proof.
  intros Hc. pose proof Hc as [I1 I2 I3 I4 I5].
  destruct a as [userId username answer now | k db | now | now
                | socketId userId username | socketId | | ]; simpl.
  - (* submitAnswer *)
    destruct (submitAnswer userId username answer now (svc sys))
      as [[[r | p] s'] effects] eqn:E.
    + apply submitAnswer_returned in E as (Hw & Hg & Hl).
      assert (Hcount : forall r0, winnersOf r0
                {| svc := s'; gen := gen sys; round := round sys;
                   suspended := suspended sys;
                   returned := returned sys ++ [(round sys, r)] |}
              = winnersOf r0 sys).
      { intros r0. unfold winnersOf, winnersReturned, winnersSuspended. simpl.
        rewrite count_app. simpl. rewrite Hw, andb_false_r. simpl. lia. }
      split; simpl.
      * intros r0. rewrite Hcount. apply I1.
      * intros r0 Hlt. rewrite Hcount. apply I2. exact Hlt.
      * rewrite Hg. intros Hn. rewrite Hcount. apply I3. exact Hn.
      * rewrite Hg. exact I4.
      * rewrite Hg. intros Hl'. apply I5, Hl, Hl'.
    + apply submitAnswer_awaiting in E as (Hnone & Hsome & Hact).
      assert (Hcount : forall r0, winnersOf r0
                {| svc := s'; gen := gen sys; round := round sys;
                   suspended := suspended sys ++ [(round sys, p)];
                   returned := returned sys |}
              = (winnersOf r0 sys + if Nat.eqb (round sys) r0 then 1 else 0)%nat).
      { intros r0. unfold winnersOf, winnersReturned, winnersSuspended. simpl.
        rewrite count_app. simpl. destruct (Nat.eqb (round sys) r0); simpl; lia. }
      specialize (I3 Hnone).
      split; simpl.
      * intros r0. rewrite Hcount.
        destruct (Nat.eqb_spec (round sys) r0) as [<- | Hne];
          [rewrite I3; lia | specialize (I1 r0); lia].
      * intros r0 Hlt. rewrite Hcount, (I2 r0 Hlt).
        destruct (Nat.eqb_spec (round sys) r0); [lia | reflexivity].
      * rewrite Hsome. discriminate.
      * rewrite Hact. discriminate.
      * rewrite Hsome. discriminate.
  - (* a suspended submitAnswer resumes *)
    destruct (suspended sys !! k) as [[rd p] |] eqn:Hk; [|exact Hc].
    pose proof (submitAnswer_resume_gameState p db (svc sys)) as [Hg Hl].
    assert (Hsusp : forall r0,
              winnersSuspended r0 sys
              = (length (List.filter (fun x => Nat.eqb (fst x) r0)
                           (delete k (suspended sys)))
                 + if Nat.eqb rd r0 then 1 else 0)%nat).
    { intros r0. unfold winnersSuspended.
      rewrite (count_delete _ _ k (rd, p) Hk). reflexivity. }
    destruct (submitAnswer_resume p db (svc sys)) as [[[r |] s'] effects] eqn:E;
      simpl in Hg, Hl.
    + apply submitAnswer_resume_isWinner in E.
      assert (Hcount : forall r0, winnersOf r0
                {| svc := s'; gen := gen sys; round := round sys;
                   suspended := delete k (suspended sys);
                   returned := returned sys ++ [(rd, r)] |}
              = winnersOf r0 sys).
      { intros r0. unfold winnersOf at 2. rewrite Hsusp.
        unfold winnersOf, winnersReturned, winnersSuspended. simpl.
        rewrite count_app. simpl. rewrite E, andb_true_r.
        destruct (Nat.eqb rd r0); simpl; lia. }
      split; simpl.
      * intros r0. rewrite Hcount. apply I1.
      * intros r0 Hlt. rewrite Hcount. apply I2. exact Hlt.
      * rewrite Hg. intros Hn. rewrite Hcount. apply I3. exact Hn.
      * rewrite Hg. exact I4.
      * rewrite Hl. discriminate.
    + assert (Hcount : forall r0, (winnersOf r0
                {| svc := s'; gen := gen sys; round := round sys;
                   suspended := delete k (suspended sys);
                   returned := returned sys |}
              <= winnersOf r0 sys)%nat).
      { intros r0. unfold winnersOf at 2. rewrite Hsusp.
        unfold winnersOf, winnersReturned, winnersSuspended. simpl. lia. }
      split; simpl.
      * intros r0. specialize (Hcount r0). specialize (I1 r0). lia.
      * intros r0 Hlt. specialize (Hcount r0). specialize (I2 r0 Hlt). lia.
      * rewrite Hg. intros Hn. specialize (Hcount (round sys)).
        specialize (I3 Hn). lia.
      * rewrite Hg. exact I4.
      * rewrite Hl. discriminate.
  - (* startNewQuestion *)
    pose proof (startNewQuestion_gameState now (svc sys) (gen sys)) as Hg.
    destruct (startNewQuestion now (svc sys) (gen sys)) as [[[c s'] gen'] effects].
    apply (consistent_new_round sys); auto.
  - (* forceNewQuestion *)
    pose proof (forceNewQuestion_winner now (svc sys) (gen sys)) as Hg.
    destruct (forceNewQuestion now (svc sys) (gen sys)) as [[[c s'] gen'] effects].
    apply (consistent_new_round sys); auto.
  - apply (consistent_frame sys); auto.
  - destruct (removeUser_round socketId (svc sys)) as (Hw & Ha & Hl).
    apply (consistent_frame sys); auto.
  - apply (consistent_frame sys); auto.
  - apply (consistent_frame sys); auto.
Qed.

Lemma run_consistent schedule : forall sys,
  consistent sys -> consistent (run schedule sys).
Proof.
  induction schedule as [|a schedule IH]; intros sys Hc; [exact Hc|].
  apply IH, step_consistent, Hc.
Qed.

End ServerInvariant.

(** C1. Whatever the server has been through since it was booted (any
    interleaving of submissions, of resumptions of suspended submissions
    with any outcome of the score ledger, of round starts, forced resets,
    joins and departures), of the [submitAnswer] calls made in one round,
    that is between two consecutive calls of [startNewQuestion], at most
    one has returned [isWinner: true], and at most one has got as far as
    assigning the winner record (returned or still suspended at the
    [await]); and whenever the round carries a winner record its active
    flag is off. *)
Theorem single_winner_per_round :
  forall (gen0 : QuestionGenerator.State) (schedule : list Server.Action),
    let sys := Server.run schedule (Server.boot gen0) in
    (forall r, (Server.winnersReturned r sys <= 1)%nat)
    /\ (forall r, (Server.winnersReturned r sys + Server.winnersSuspended r sys <= 1)%nat)
    /\ (forall w,
          GameService.winner (GameService.gameState (Server.svc sys)) = Some w ->
          GameService.isActive (GameService.gameState (Server.svc sys)) = false).
Proof.
  intros gen0 schedule sys.
  destruct (run_consistent schedule _ (boot_consistent gen0)) as [I1 _ _ I4 _].
  fold sys in I1, I4. split; [|split].
  - intros r. specialize (I1 r). unfold winnersOf in I1. lia.
  - intros r. exact (I1 r).
  - intros w Hw.
    destruct (GameService.isActive (GameService.gameState (Server.svc sys))) eqn:Ha;
      [|reflexivity].
    rewrite (I4 eq_refl) in Hw. discriminate Hw.
Qed.

(** In the running example alice and bob both answer 42 before the ledger
    write of alice's call settles: alice is the one winner of round 1, and
    the round is closed. *)
Lemma single_winner_per_round_witness :
  let sys := Server.run [Server.CallSetQuestionChangeCallback;
                         Server.CallSetWinnerAnnouncementCallback;
                         Server.CallStartNewQuestion 0;
                         Server.CallSubmitAnswer "u1" "alice" 42 1500;
                         Server.CallSubmitAnswer "u2" "bob" 42 1600;
                         Server.ResumeSubmitAnswer 0 GameService.Rejected]
                        (Server.boot demoGen) in
  Server.winnersReturned 1 sys = 1%nat
  /\ GameService.winner (GameService.gameState (Server.svc sys))
     = Some {| GameService.w_userId := "u1"; GameService.w_username := "alice";
               GameService.w_submissionTime := 1500 |}
  /\ GameService.isActive (GameService.gameState (Server.svc sys)) = false.
Proof.
  intros sys. split; [vm_compute; reflexivity|].
  split; [vm_compute; reflexivity|].
  apply (proj2 (proj2 (single_winner_per_round demoGen
           [Server.CallSetQuestionChangeCallback;
            Server.CallSetWinnerAnnouncementCallback;
            Server.CallStartNewQuestion 0;
            Server.CallSubmitAnswer "u1" "alice" 42%float 1500;
            Server.CallSubmitAnswer "u2" "bob" 42%float 1600;
            Server.ResumeSubmitAnswer 0 GameService.Rejected]))
         {| GameService.w_userId := "u1"; GameService.w_username := "alice";
            GameService.w_submissionTime := 1500 |}).
  vm_compute. reflexivity.
Defined.

(** ** Correct but late *)

(** C2 does not hold of the code. [submitAnswer] has two branches written to
    answer a correct but late submission with
    [{isCorrect: true, isWinner: false}] (the test of the lock and of the
    winner record, and the second look at the winner record under the
    lock), but the guard on [isActive] comes before both, and the winning
    call clears [isActive] in the same synchronous step that writes the
    winner record. In the simplest run alice answers 42 and wins, bob
    answers 42 a moment later against the same question, and bob is told
    [{isCorrect: false, isWinner: false, timeTaken: 0}]. So it is in every
    state the server reaches: with the lock held or a winner record present
    any submission, correct or not, gets the no-active-round result, the
    service untouched; and no call of [submitAnswer] that returns without
    winning ever reports [isCorrect: true]. *)
Theorem late_correct_submission_judged_incorrect :
  (let sys := Server.run [Server.CallSetQuestionChangeCallback;
                          Server.CallSetWinnerAnnouncementCallback;
                          Server.CallStartNewQuestion 0;
                          Server.CallSubmitAnswer "u1" "alice" 42 1500;
                          Server.ResumeSubmitAnswer 0 GameService.Resolved]
                         (Server.boot demoGen) in
   GameService.winner (GameService.gameState (Server.svc sys))
   = Some {| GameService.w_userId := "u1"; GameService.w_username := "alice";
             GameService.w_submissionTime := 1500 |}
   /\ GameService.submissionLock (Server.svc sys) = false
   /\ option_map answerOf
        (GameService.currentQuestion (GameService.gameState (Server.svc sys)))
      = Some 42%float
   /\ withinTolerance 42 42 = true
   /\ GameService.submitAnswer "u2" "bob" 42 1600 (Server.svc sys)
      = (GameService.Returned
           {| GameService.isCorrect := false; GameService.isWinner := false;
              GameService.submissionTime := 1600; GameService.timeTaken := 0 |},
         Server.svc sys, []))
  /\ (forall gen0 schedule userId username answer now,
        let s := Server.svc (Server.run schedule (Server.boot gen0)) in
        GameService.submissionLock s = true \/
        GameService.winner (GameService.gameState s) <> None ->
        GameService.submitAnswer userId username answer now s
        = (GameService.Returned
             {| GameService.isCorrect := false; GameService.isWinner := false;
                GameService.submissionTime := now; GameService.timeTaken := 0 |},
           s, []))
  /\ (forall gen0 schedule userId username answer now r s' effects,
        GameService.submitAnswer userId username answer now
          (Server.svc (Server.run schedule (Server.boot gen0)))
        = (GameService.Returned r, s', effects) ->
        GameService.isCorrect r = false).
Proof.
  split; [|split].
  - intros sys. split_and!; vm_compute; reflexivity.
  - intros gen0 schedule userId username answer now s Hlate.
    destruct (run_consistent schedule _ (boot_consistent gen0)) as [_ _ _ I4 I5].
    fold s in I4, I5.
    apply submitAnswer_closed. unfold accepting.
    destruct (GameService.isActive (GameService.gameState s)); [|reflexivity].
    exfalso. destruct Hlate as [Hl | Hw]; [apply (I5 Hl) | apply Hw]; apply I4;
      reflexivity.
  - intros gen0 schedule userId username answer now r s' effects.
    destruct (run_consistent schedule _ (boot_consistent gen0)) as [_ _ _ I4 I5].
    set (s := Server.svc (Server.run schedule (Server.boot gen0))) in *.
    destruct (accepting s) eqn:Hacc.
    + unfold accepting in Hacc.
      destruct (GameService.isActive (GameService.gameState s)) eqn:Ha;
        [|discriminate Hacc].
      destruct (GameService.currentQuestion (GameService.gameState s))
        as [question|] eqn:Hq; [|discriminate Hacc].
      destruct (GameService.startTime (GameService.gameState s))
        as [start|] eqn:Hs; [|discriminate Hacc].
      rewrite (submitAnswer_open userId username answer now s question start Ha Hq Hs).
      specialize (I4 eq_refl).
      destruct (GameService.submissionLock s) eqn:Hl;
        [exfalso; apply (I5 eq_refl); exact I4|].
      rewrite I4. cbv zeta.
      destruct (JS.lt _ _); simpl; intros E.
      * discriminate E.
      * injection E as <- _ _. reflexivity.
    + rewrite (submitAnswer_closed userId username answer now s Hacc).
      intros E. injection E as <- _ _. reflexivity.
Qed.

(** The second submission of the run above, through the general statement:
    after alice's win the winner record is present, and bob's 42 gets the
    no-active-round result. *)
Lemma late_correct_submission_judged_incorrect_witness :
  let s := Server.svc
             (Server.run [Server.CallSetQuestionChangeCallback;
                          Server.CallSetWinnerAnnouncementCallback;
                          Server.CallStartNewQuestion 0;
                          Server.CallSubmitAnswer "u1" "alice" 42 1500;
                          Server.ResumeSubmitAnswer 0 GameService.Resolved]
                         (Server.boot demoGen)) in
  (GameService.submissionLock s = true \/
   GameService.winner (GameService.gameState s) <> None)
  /\ GameService.submitAnswer "u2" "bob" 42 1600 s
     = (GameService.Returned
          {| GameService.isCorrect := false; GameService.isWinner := false;
             GameService.submissionTime := 1600; GameService.timeTaken := 0 |},
        s, []).
Proof.
  intros s.
  assert (H : GameService.submissionLock s = true \/
              GameService.winner (GameService.gameState s) <> None).
  { right. intros Hw. vm_compute in Hw. discriminate Hw. }
  split; [exact H|].
  exact (proj1 (proj2 late_correct_submission_judged_incorrect)
           demoGen _ "u2" "bob" 42%float 1600 H).
Defined.

(** ** The participant set is not consulted *)

(** C10. [submitAnswer] never reads the round's participant set: run on two
    services that differ only there, the call (and its resumption) gives
    the same outcome and the same effects, and leaves two services that
    again differ only there, so the same winner record. In particular a
    user who is not in the participant set is judged and recorded as the
    winner like anyone else: in the running example the set is empty, and
    [u9] wins. *)
Theorem submitAnswer_ignores_participants :
  (forall ps userId username answer now (s : GameService.Service),
     GameService.submitAnswer userId username answer now (withParticipants ps s)
     = let '(o, s', effects) := GameService.submitAnswer userId username answer now s in
       (o, withParticipants ps s', effects))
  /\ (forall ps p db (s : GameService.Service),
        GameService.submitAnswer_resume p db (withParticipants ps s)
        = let '(c, s', effects) := GameService.submitAnswer_resume p db s in
          (c, withParticipants ps s', effects))
  /\ (let s := Server.svc demoServer in
      ("u9" ∉ GameService.participants (GameService.gameState s))
      /\ fst (fst (GameService.submitAnswer "u9" "mallory" 42 1500 s))
         = GameService.Awaiting
             {| GameService.p_userId := "u9"; GameService.p_username := "mallory";
                GameService.p_submissionTime := 1500;
                GameService.p_timeTaken := 1500 |}
      /\ GameService.winner (GameService.gameState
           (snd (fst (GameService.submitAnswer "u9" "mallory" 42 1500 s))))
         = Some {| GameService.w_userId := "u9"; GameService.w_username := "mallory";
                   GameService.w_submissionTime := 1500 |}).
Proof.
  split; [|split].
  - intros ps userId username answer now [[q a st w ps0] users lock d c1 c2].
    unfold GameService.submitAnswer, withParticipants. simpl.
    destruct a, q as [question|], st as [start|]; try reflexivity.
    destruct (negb _); [reflexivity|].
    destruct lock; [reflexivity|]. destruct w; reflexivity.
  - intros ps p db [[q a st w ps0] users lock d c1 c2].
    unfold GameService.submitAnswer_resume, withParticipants. simpl.
    destruct c2; [destruct q|]; reflexivity.
  - intros s. subst s. split; [|split; vm_compute; reflexivity].
    assert (H : GameService.participants
                  (GameService.gameState (Server.svc demoServer)) = ∅)
      by (vm_compute; reflexivity).
    rewrite H. apply not_elem_of_empty.
Qed.

(* ===================================================================== *)
(** * Properties of the question generator *)
(* ===================================================================== *)

Section GeneratorRules.

Import QuestionGenerator.

Context {A B : Type}.

Lemma keepsHistory_ret (a : A) : keepsHistory (ret a).
Proof. intros s. reflexivity. Qed.

Lemma keepsHistory_bind (m : M A) (k : A -> M B) :
  keepsHistory m -> (forall a, keepsHistory (k a)) -> keepsHistory (bind m k).
Proof.
  intros Hm Hk s. unfold bind. specialize (Hm s).
  destruct (m s) as [[a|] s1]; simpl in *; [|exact Hm].
  rewrite (Hk a s1). exact Hm.
Qed.

Lemma keepsHistory_tryCatch (m h : M A) :
  keepsHistory m -> keepsHistory h -> keepsHistory (tryCatch m h).
Proof.
  intros Hm Hh s. unfold tryCatch. specialize (Hm s).
  destruct (m s) as [[a|] s1]; simpl in *; [exact Hm|].
  rewrite (Hh s1). exact Hm.
Qed.

Lemma keepsHistory_lift (c : Completion A) : keepsHistory (lift c).
Proof. intros s. reflexivity. Qed.

Lemma neverThrows_ret (a : A) : neverThrows (ret a).
Proof. intros s. exists a. reflexivity. Qed.

Lemma neverThrows_bind (m : M A) (k : A -> M B) :
  neverThrows m -> (forall a, neverThrows (k a)) -> neverThrows (bind m k).
Proof.
  intros Hm Hk s. unfold bind. destruct (Hm s) as [a Ha].
  destruct (m s) as [[a'|] s1]; simpl in Ha; [|discriminate Ha].
  apply Hk.
Qed.

Lemma returnsOnly_ret (a : A) (P : A -> Prop) : P a -> returnsOnly (ret a) P.
Proof. intros Ha s a' s' [= <- _]. exact Ha. Qed.

Lemma returnsOnly_bind (m : M A) (k : A -> M B) (P : B -> Prop) :
  (forall a, returnsOnly (k a) P) -> returnsOnly (bind m k) P.
Proof.
  intros Hk s b s'. unfold bind.
  destruct (m s) as [[a|] s1]; [apply Hk | discriminate].
Qed.

Lemma returnsOnly_seq (m : M A) (k : A -> M B) (Q : A -> Prop) (P : B -> Prop) :
  returnsOnly m Q -> (forall a, Q a -> returnsOnly (k a) P) ->
  returnsOnly (bind m k) P.
Proof.
  intros Hm Hk s b s'. unfold bind.
  destruct (m s) as [[a|] s1] eqn:E; [|discriminate].
  apply (Hk a). exact (Hm s a s1 E).
Qed.

Lemma returnsOnly_tryCatch (m h : M A) (P : A -> Prop) :
  returnsOnly m P -> returnsOnly h P -> returnsOnly (tryCatch m h) P.
Proof.
  intros Hm Hh s a s'. unfold tryCatch.
  destruct (m s) as [[a'|] s1] eqn:E.
  - intros [= <- <-]. exact (Hm s a' s1 E).
  - apply Hh.
Qed.

Lemma neverThrows_tryCatch (m h : M A) : neverThrows h -> neverThrows (tryCatch m h).
Proof.
  intros Hh s. unfold tryCatch.
  destruct (m s) as [[a|] s1]; [exists a; reflexivity | apply Hh].
Qed.

End GeneratorRules.

Section GeneratorFacts.

Import QuestionGenerator.

Lemma keepsHistory_Math_random : keepsHistory Math_random.
Proof. intros s. reflexivity. Qed.

Lemma keepsHistory_uuidv4 : keepsHistory uuidv4.
Proof. intros s. reflexivity. Qed.

Lemma keepsHistory_get : keepsHistory get.
Proof. intros s. reflexivity. Qed.

Lemma keepsHistory_setQuestionCounter f :
  keepsHistory (modify (fun s => setQuestionCounter (f s) s)).
Proof. intros s. reflexivity. Qed.

Lemma neverThrows_Math_random : neverThrows Math_random.
Proof. intros s. eexists. reflexivity. Qed.

Lemma neverThrows_uuidv4 : neverThrows uuidv4.
Proof. intros s. eexists. reflexivity. Qed.

Lemma neverThrows_get : neverThrows get.
Proof. intros s. eexists. reflexivity. Qed.

Lemma neverThrows_modify f : neverThrows (modify f).
Proof. intros s. eexists. reflexivity. Qed.

Create HintDb gen discriminated.
#[local] Hint Resolve keepsHistory_Math_random keepsHistory_uuidv4 keepsHistory_get
  keepsHistory_setQuestionCounter neverThrows_Math_random neverThrows_uuidv4
  neverThrows_get neverThrows_modify : gen.

(** Splits a goal about a computation along its structure. *)
Ltac walk :=
  repeat match goal with
    | |- keepsHistory (bind _ _) => apply keepsHistory_bind; [|intros ?]
    | |- keepsHistory (ret _) => apply keepsHistory_ret
    | |- keepsHistory (lift _) => apply keepsHistory_lift
    | |- neverThrows (bind _ _) => apply neverThrows_bind; [|intros ?]
    | |- neverThrows (ret _) => apply neverThrows_ret
    | |- returnsOnly (bind _ _) _ => apply returnsOnly_bind; intros ?
    | |- returnsOnly (ret _) _ => apply returnsOnly_ret; reflexivity
    | |- _ (if ?b then _ else _) => destruct b
    | |- _ (if ?b then _ else _) _ => destruct b
    | |- _ (match ?x with Some _ => _ | None => _ end) => destruct x
    | |- _ (match ?x with Some _ => _ | None => _ end) _ => destruct x
    | |- _ (match ?x with Normal _ => _ | Throw => _ end) => destruct x
    | |- _ => progress cbv zeta
    | |- _ => solve [auto with gen]
    end.

Lemma keepsHistory_randomNumber lo hi : keepsHistory (randomNumber lo hi).
Proof. unfold randomNumber. walk. Qed.

Lemma keepsHistory_choose {A} (l : list A) n : keepsHistory (choose l n).
Proof. unfold choose. walk. Qed.

Lemma neverThrows_randomNumber lo hi : neverThrows (randomNumber lo hi).
Proof. unfold randomNumber. walk. Qed.

Lemma neverThrows_choose {A} (l : list A) n : neverThrows (choose l n).
Proof. unfold choose. walk. Qed.

#[local] Hint Resolve keepsHistory_randomNumber keepsHistory_choose
  neverThrows_randomNumber neverThrows_choose : gen.

Lemma keepsHistory_findDivisor num : keepsHistory (findDivisor num).
Proof. unfold findDivisor. walk. Qed.

#[local] Hint Resolve keepsHistory_findDivisor : gen.

Lemma keepsHistory_expressionLoop fuel config numTerms :
  forall i expression, keepsHistory (expressionLoop fuel config numTerms i expression).
Proof.
  induction fuel as [|fuel IH]; intros i expression; simpl; walk.
Qed.

#[local] Hint Resolve keepsHistory_expressionLoop : gen.

Lemma keepsHistory_generateArithmeticExpression config numTerms :
  keepsHistory (generateArithmeticExpression config numTerms).
Proof. unfold generateArithmeticExpression. walk. Qed.

#[local] Hint Resolve keepsHistory_generateArithmeticExpression : gen.

Lemma keepsHistory_arithmeticLoop fuel config numTerms :
  forall expression answer,
    keepsHistory (arithmeticLoop fuel config numTerms expression answer).
Proof.
  induction fuel as [|fuel IH]; intros expression answer; simpl; walk.
Qed.

#[local] Hint Resolve keepsHistory_arithmeticLoop : gen.

Lemma keepsHistory_generateArithmetic difficulty :
  keepsHistory (generateArithmetic difficulty).
Proof. unfold generateArithmetic. walk. Qed.

Lemma keepsHistory_generateAlgebra difficulty :
  keepsHistory (generateAlgebra difficulty).
Proof. unfold generateAlgebra. walk. Qed.

Lemma keepsHistory_generateFractions difficulty :
  keepsHistory (generateFractions difficulty).
Proof. unfold generateFractions. walk. Qed.

Lemma keepsHistory_generatePercentages difficulty :
  keepsHistory (generatePercentages difficulty).
Proof. unfold generatePercentages. walk. Qed.

Lemma keepsHistory_generatePowers difficulty :
  keepsHistory (generatePowers difficulty).
Proof. unfold generatePowers. walk. Qed.

Lemma keepsHistory_generateMixed difficulty :
  keepsHistory (generateMixed difficulty).
Proof. unfold generateMixed. walk. Qed.

#[local] Hint Resolve keepsHistory_generateArithmetic keepsHistory_generateAlgebra
  keepsHistory_generateFractions keepsHistory_generatePercentages
  keepsHistory_generatePowers keepsHistory_generateMixed : gen.

Lemma keepsHistory_generateQuestionByType type difficulty :
  keepsHistory (generateQuestionByType type difficulty).
Proof. unfold generateQuestionByType. walk. Qed.

Lemma keepsHistory_getRandomQuestionType difficulty :
  keepsHistory (getRandomQuestionType difficulty).
Proof. unfold getRandomQuestionType. walk. Qed.

Lemma keepsHistory_nextId : keepsHistory nextId.
Proof. unfold nextId. walk. Qed.

Lemma neverThrows_nextId : neverThrows nextId.
Proof. unfold nextId. walk. Qed.

#[local] Hint Resolve keepsHistory_generateQuestionByType
  keepsHistory_getRandomQuestionType keepsHistory_nextId neverThrows_nextId : gen.

Lemma keepsHistory_generateSimpleArithmetic difficulty now :
  keepsHistory (generateSimpleArithmetic difficulty now).
Proof. unfold generateSimpleArithmetic. walk. Qed.

Lemma neverThrows_generateSimpleArithmetic difficulty now :
  neverThrows (generateSimpleArithmetic difficulty now).
Proof. unfold generateSimpleArithmetic. walk. Qed.

(** Every archetype passes the requested difficulty on. *)
Lemma difficulty_generateQuestionByType type d :
  returnsOnly (generateQuestionByType type d) (fun q => difficulty q = d).
Proof.
  assert (returnsOnly (generateArithmetic d) (fun q => difficulty q = d))
    by (unfold generateArithmetic; walk).
  assert (returnsOnly (generateAlgebra d) (fun q => difficulty q = d))
    by (unfold generateAlgebra; walk).
  assert (returnsOnly (generateFractions d) (fun q => difficulty q = d))
    by (unfold generateFractions; walk).
  assert (returnsOnly (generatePercentages d) (fun q => difficulty q = d))
    by (unfold generatePercentages; walk).
  assert (returnsOnly (generatePowers d) (fun q => difficulty q = d))
    by (unfold generatePowers; walk).
  assert (returnsOnly (generateMixed d) (fun q => difficulty q = d))
    by (unfold generateMixed; walk).
  unfold generateQuestionByType. walk.
Qed.

Lemma difficulty_attempt d now :
  returnsOnly (attempt d now)
    (fun r => forall q, r = Some q -> difficultyOf q = d).
Proof.
  unfold attempt.
  apply returnsOnly_bind; intros questionType.
  eapply returnsOnly_seq; [apply difficulty_generateQuestionByType|].
  intros question Hq. walk;
    apply returnsOnly_ret; intros q E; [injection E as <-; exact Hq | discriminate E].
Qed.

Lemma difficulty_generateSimpleArithmetic d now :
  returnsOnly (generateSimpleArithmetic d now) (fun q => difficultyOf q = d).
Proof. unfold generateSimpleArithmetic. walk. Qed.

Lemma difficulty_attempts d now fuel :
  returnsOnly (attempts fuel d now) (fun q => difficultyOf q = d).
Proof.
  induction fuel as [|fuel IH]; simpl.
  - apply difficulty_generateSimpleArithmetic.
  - eapply returnsOnly_seq.
    + apply returnsOnly_tryCatch; [apply difficulty_attempt|].
      apply returnsOnly_ret. discriminate.
    + intros [q|] Hq; [apply returnsOnly_ret; auto | exact IH].
Qed.

Lemma neverThrows_attempts d now fuel : neverThrows (attempts fuel d now).
Proof.
  induction fuel as [|fuel IH]; simpl.
  - apply neverThrows_generateSimpleArithmetic.
  - apply neverThrows_bind.
    + apply neverThrows_tryCatch, neverThrows_ret.
    + intros [q|]; [apply neverThrows_ret | exact IH].
Qed.

(** [generateQuestion] always returns a question, of the difficulty asked
    for. *)
Lemma generateQuestion_returns d now s :
  exists q s', generateQuestion d now s = (Normal q, s') /\ difficultyOf q = d.
Proof.
  destruct (neverThrows_attempts d now maxAttempts s) as [q Hq].
  unfold generateQuestion.
  destruct (attempts maxAttempts d now s) as [c s'] eqn:E. simpl in Hq. subst c.
  exists q, s'. split; [reflexivity|].
  exact (difficulty_attempts d now maxAttempts s q s' E).
Qed.

(** ** The set of recent keys *)

Lemma Set_has_In k l : Set_has k l = true <-> In k l.
Proof.
  unfold Set_has. rewrite existsb_exists. split.
  - intros (x & Hx & He). apply String.eqb_eq in He. subst. exact Hx.
  - intros H. exists k. split; [exact H | apply String.eqb_refl].
Qed.

Lemma Set_add_spec k l :
  (In k l /\ Set_add k l = l) \/ (~ In k l /\ Set_add k l = l ++ [k]).
Proof.
  unfold Set_add. destruct (Set_has k l) eqn:E.
  - left. split; [apply Set_has_In, E | reflexivity].
  - right. split; [|reflexivity]. intros H. apply Set_has_In in H. congruence.
Qed.

Lemma Set_add_NoDup k l : NoDup l -> NoDup (Set_add k l).
Proof.
  intros Hl. destruct (Set_add_spec k l) as [[_ ->] | [Hk ->]]; [exact Hl|].
  apply NoDup_app. split_and!; auto.
  - intros x Hx Hx'. apply list_elem_of_In in Hx, Hx'.
    destruct Hx' as [<- | []]. exact (Hk Hx).
  - apply NoDup_singleton.
Qed.

Lemma Set_of_from acc : forall a,
  NoDup (acc ++ a) -> fold_left (fun acc k => Set_add k acc) a acc = acc ++ a.
Proof.
  intros a. revert acc.
  induction a as [|k a IH]; intros acc Hnd; simpl.
  - rewrite app_nil_r. reflexivity.
  - replace (acc ++ k :: a) with ((acc ++ [k]) ++ a) in *
      by (rewrite <- app_assoc; reflexivity).
    destruct (Set_add_spec k acc) as [[Hin _] | [_ ->]].
    + exfalso. apply NoDup_app in Hnd as (Hnd & _ & _).
      apply NoDup_app in Hnd as (_ & Hd & _).
      apply (Hd k); apply list_elem_of_In; [exact Hin | left; reflexivity].
    + apply IH. exact Hnd.
Qed.

Lemma Set_of_NoDup a : NoDup a -> Set_of a = a.
Proof. intros H. unfold Set_of. apply (Set_of_from [] a H). Qed.

Lemma slice_last_NoDup {A} n (a : list A) : NoDup a -> NoDup (slice_last n a).
Proof.
  intros H. unfold slice_last.
  rewrite <- (firstn_skipn (length a - n) a) in H.
  apply NoDup_app in H as (_ & _ & H). exact H.
Qed.

Lemma slice_last_length {A} n (a : list A) :
  length (slice_last n a) = Nat.min n (length a).
Proof. unfold slice_last. rewrite length_skipn. lia. Qed.

(** What an accepted attempt does to the set: below the hard cap the key is
    added (if new); at the cap a new key triggers the trim, which leaves
    the last 100 entries in insertion order. *)
Lemma remember_spec key seen :
  NoDup seen -> (length seen <= 150)%nat ->
  NoDup (remember key seen)
  /\ ((remember key seen = Set_add key seen /\ (length (remember key seen) <= 150)%nat)
      \/ (~ In key seen /\ length seen = 150%nat
          /\ remember key seen = slice_last 100 (seen ++ [key])
          /\ length (remember key seen) = 100%nat)).
Proof.
  intros Hnd Hlen. unfold remember.
  pose proof (Set_add_NoDup key seen Hnd) as Hnd1.
  destruct (Nat.ltb_spec 150 (length (Set_add key seen))) as [Hbig | Hsmall].
  - destruct (Set_add_spec key seen) as [[_ He] | [Hk He]];
      rewrite He in Hbig, Hnd1 |- *; [lia|].
    rewrite length_app in Hbig. simpl in Hbig.
    rewrite (Set_of_NoDup _ (slice_last_NoDup 100 _ Hnd1)).
    split; [apply slice_last_NoDup, Hnd1|]. right.
    split_and!; auto; [lia|].
    rewrite slice_last_length, length_app. change (length [key]) with 1%nat. lia.
  - split; [exact Hnd1|]. left. split; [reflexivity | exact Hsmall].
Qed.

(** One attempt either is accepted, and then remembers its key, or leaves
    the set alone. *)
Lemma attempt_history d now s :
  let r := attempt d now s in
  match fst r with
  | Normal (Some _) =>
      exists key, generatedQuestions (snd r) = remember key (generatedQuestions s)
  | _ => generatedQuestions (snd r) = generatedQuestions s
  end.
Proof.
  intros r. subst r. destruct (attempt d now s) as [c s'] eqn:E. simpl.
  unfold attempt, bind, get, modify in E.
  pose proof (keepsHistory_getRandomQuestionType d s) as H1.
  destruct (getRandomQuestionType d s) as [[ty|] s1]; simpl in H1;
    [|injection E as <- <-; exact H1].
  pose proof (keepsHistory_generateQuestionByType ty d s1) as H2.
  destruct (generateQuestionByType ty d s1) as [[q|] s2]; simpl in H2;
    [|injection E as <- <-; congruence].
  destruct (negb _ || _); [|injection E as <- <-; congruence].
  match type of E with
  | context [nextId ?s3] =>
      pose proof (keepsHistory_nextId s3) as H3;
      destruct (neverThrows_nextId s3) as [i Hi];
      destruct (nextId s3) as [c3 s4]
  end.
  simpl in Hi. subst c3. simpl in H3. injection E as <- <-.
  exists (questionKey q). rewrite H3. simpl. rewrite H2, H1. reflexivity.
Qed.

Lemma attempts_history d now fuel : forall s,
  let s' := snd (attempts fuel d now s) in
  generatedQuestions s' = generatedQuestions s
  \/ exists key, generatedQuestions s' = remember key (generatedQuestions s).
Proof.
  induction fuel as [|fuel IH]; intros s; cbv zeta.
  - left. apply (keepsHistory_generateSimpleArithmetic d now s).
  - change (attempts (S fuel) d now s)
      with (bind (tryCatch (attempt d now) (ret None))
              (fun r => match r with
                        | Some q => ret q
                        | None => attempts fuel d now
                        end) s).
    unfold bind, tryCatch.
    pose proof (attempt_history d now s) as Ha. cbv zeta in Ha.
    destruct (attempt d now s) as [[[q|]|] s1]; simpl in Ha.
    + right. exact Ha.
    + rewrite <- Ha. apply IH.
    + unfold ret at 1. rewrite <- Ha. apply IH.
Qed.

Lemma generateQuestion_history d now s :
  NoDup (generatedQuestions s) -> (length (generatedQuestions s) <= 150)%nat ->
  let seen := generatedQuestions s in
  let seen' := generatedQuestions (snd (generateQuestion d now s)) in
  NoDup seen' /\ (length seen' <= 150)%nat
  /\ (seen' = seen
      \/ exists key,
           (seen' = Set_add key seen)
           \/ (~ In key seen /\ length seen = 150%nat
               /\ seen' = slice_last 100 (seen ++ [key])
               /\ length seen' = 100%nat)).
Proof.
  intros Hnd Hlen seen seen'. unfold generateQuestion in seen'.
  destruct (attempts_history d now maxAttempts s) as [He | [key He]];
    fold seen seen' in He.
  - rewrite He. auto.
  - destruct (remember_spec key seen Hnd Hlen) as [Hnd' Hcase].
    rewrite <- He in Hnd', Hcase.
    split; [exact Hnd'|].
    destruct Hcase as [[Heq Hle] | (Hk & Hfull & Heq & Hhund)].
    + split; [exact Hle|]. right. exists key. left. congruence.
    + split; [lia|]. right. exists key. right. auto.
Qed.

End GeneratorFacts.

Section GeneratorRuns.

Import QuestionGenerator.

Lemma generatorRun_history calls : forall s,
  NoDup (generatedQuestions s) -> (length (generatedQuestions s) <= 150)%nat ->
  NoDup (generatedQuestions (generatorRun calls s))
  /\ (length (generatedQuestions (generatorRun calls s)) <= 150)%nat.
Proof.
  induction calls as [|c calls IH]; intros s Hnd Hlen; [auto|].
  simpl. apply IH; destruct c as [d now|]; simpl.
  - apply (generateQuestion_history d now s Hnd Hlen).
  - apply NoDup_nil_2.
  - apply (generateQuestion_history d now s Hnd Hlen).
  - lia.
Qed.

End GeneratorRuns.

(** C9. Start from a generator with an empty history and make any series of
    [generateQuestion] calls (and history resets), with any random draws.
    The set of recent keys then holds at most 150 entries, without
    repetition; and one more call either leaves the set as it is, or adds
    one key to it, or, when the set is full (150 entries) and the key is
    new, trims it: the set becomes the last 100 entries, in insertion
    order, of the old set followed by the new key, and holds exactly 100
    entries. *)
Theorem dedupe_set_bounded :
  forall entropy uuids (calls : list GeneratorCall),
    let s := generatorRun calls (freshGenerator entropy uuids) in
    let seen := QuestionGenerator.generatedQuestions s in
    (length seen <= 150)%nat
    /\ NoDup seen
    /\ forall difficulty now,
         let seen' := QuestionGenerator.generatedQuestions
                        (snd (QuestionGenerator.generateQuestion difficulty now s)) in
         (length seen' <= 150)%nat
         /\ (seen' = seen
             \/ exists key,
                  seen' = QuestionGenerator.Set_add key seen
                  \/ (~ In key seen /\ length seen = 150%nat
                      /\ seen' = QuestionGenerator.slice_last 100 (seen ++ [key])
                      /\ length seen' = 100%nat)).
Proof.
  intros entropy uuids calls s seen.
  destruct (generatorRun_history calls (freshGenerator entropy uuids))
    as [Hnd Hlen]; [apply NoDup_nil_2 | simpl; lia |].
  fold s in Hnd, Hlen. fold seen in Hnd, Hlen.
  split; [exact Hlen|]. split; [exact Hnd|].
  intros difficulty now seen'.
  destruct (generateQuestion_history difficulty now s Hnd Hlen) as (_ & Hle & Hcase).
  split; [exact Hle | exact Hcase].
Qed.

(** The trim does occur: 150 calls that produce 150 different questions
    fill the set, and the next new question cuts it down to the 100 keys
    inserted last, the newest at the end. *)
Example dedupe_trim_example :
  let s150 := generatorRun (repeat (Generate easy 0) 150)
                (freshGenerator distinctAlgebra (fun _ => "3f2a")) in
  let s151 := generatorStep (Generate easy 0) s150 in
  length (QuestionGenerator.generatedQuestions s150) = 150%nat
  /\ length (QuestionGenerator.generatedQuestions s151) = 100%nat
  /\ QuestionGenerator.generatedQuestions s151
     = skipn 51 (QuestionGenerator.generatedQuestions s150)
       ++ ["If 11x + 8 = 129, find x-11"]
  /\ nth_error (QuestionGenerator.generatedQuestions s150) 0
     = Some "If 1x + 1 = 12, find x-11".
Proof. intros s150 s151. split_and!; vm_compute; reflexivity. Qed.

(** ** The difficulty ladder *)

(** C8. [adjustDifficulty] sets the difficulty to the ladder's value for the
    number of connected users: easy up to 2 (0 included), medium for 3 to
    5, hard from 6 on. The ladder never goes down as the count goes up, and
    [startNewQuestion] always puts an active round in place whose question
    carries that difficulty. *)
Theorem difficulty_ladder :
  (forall s : GameService.Service,
     GameService.currentDifficulty (GameService.adjustDifficulty s)
     = ladder (size (GameService.connectedUsers s)))
  /\ (forall n m, (rank (ladder n) <= rank (ladder (n + m)))%nat)
  /\ (ladder 0 = easy /\ ladder 1 = easy /\ ladder 2 = easy)
  /\ (ladder 3 = medium /\ ladder 4 = medium /\ ladder 5 = medium)
  /\ (forall n, ladder (6 + n) = hard)
  /\ (forall now (s : GameService.Service) gen,
        exists question s' gen' effects,
          GameService.startNewQuestion now s gen = (Normal tt, s', gen', effects)
          /\ GameService.currentQuestion (GameService.gameState s') = Some question
          /\ GameService.isActive (GameService.gameState s') = true
          /\ difficultyOf question = ladder (size (GameService.connectedUsers s))).
Proof.
  assert (Hadj : forall s : GameService.Service,
            GameService.currentDifficulty (GameService.adjustDifficulty s)
            = ladder (size (GameService.connectedUsers s))).
  { intros s. unfold GameService.adjustDifficulty, ladder.
    destruct (_ <=? 2)%nat; [reflexivity|].
    destruct (_ <=? 5)%nat; reflexivity. }
  split; [exact Hadj|]. split; [|split; [|split; [|split]]].
  - intros n m. unfold ladder.
    destruct (Nat.leb_spec n 2), (Nat.leb_spec n 5), (Nat.leb_spec (n + m) 2),
      (Nat.leb_spec (n + m) 5); simpl; lia.
  - repeat split.
  - repeat split.
  - intros n. reflexivity.
  - intros now s gen. unfold GameService.startNewQuestion.
    destruct (generateQuestion_returns
                (GameService.currentDifficulty (GameService.adjustDifficulty s))
                now gen) as (q & gen' & -> & Hd).
    eexists q, _, gen', _. split; [reflexivity|]. simpl.
    rewrite Hd. auto.
Qed.

(** ** Answers the generator can return *)

Lemma nth_unitInterval (l : list float) : forall n,
  forallb QuestionGenerator.unitInterval l = true ->
  QuestionGenerator.unitInterval (nth n l 0%float) = true.
Proof.
  induction l as [|r l IH]; intros n Hl.
  - destruct n; reflexivity.
  - simpl in Hl. apply andb_true_iff in Hl as [Hr Hl].
    destruct n as [|n]; simpl; [exact Hr | apply IH, Hl].
Qed.

Lemma draws_valid (l : list float) :
  forallb QuestionGenerator.unitInterval l = true ->
  QuestionGenerator.validEntropy (draws l).
Proof. intros Hl n. apply nth_unitInterval, Hl. Qed.

Lemma repeated_valid times (l tail : list float) :
  forallb QuestionGenerator.unitInterval l = true ->
  forallb QuestionGenerator.unitInterval tail = true ->
  QuestionGenerator.validEntropy (repeated times l tail).
Proof.
  intros Hl Ht n. unfold repeated.
  destruct (_ <? _)%nat; apply nth_unitInterval; assumption.
Qed.

(** C3 does not hold of the code. [generateQuestion] always returns a
    question, after at most [maxAttempts = 50] attempts, but the answer is
    only checked with [isValidAnswer] inside [generateArithmetic]. With
    difficulty hard and the draws 0.7, 0.95, 0.8, 0.02 the archetype is
    powers, base 20, power 5; the result exceeds 10000, the number drawn
    for the square root is 5, not a perfect square, and the code falls
    through to [Calculate: 20^5] with answer 3200000. If the same four
    draws then repeat for the fifty attempts of the next call, every
    candidate is the recent repeat [Calculate: 20^5], and the fallback runs:
    with the draws 0.9995, 0.9995, 0.7 it returns [Calculate: 1000 * 1000]
    with answer 1000000. Neither answer is below 1,000,000 in magnitude,
    and every draw lies in [[0, 1)]. *)
Theorem generateQuestion_invalid_answer :
  let g := freshGenerator
             (repeated 51 [0.7; 0.95; 0.8; 0.02] [0.9995; 0.9995; 0.7])%float
             (fun _ => "3f2a") in
  let first_call := QuestionGenerator.generateQuestion hard 0 g in
  let second_call := QuestionGenerator.generateQuestion hard 9 (snd first_call) in
  fst first_call
  = Normal {| id := "3f2a-1";
              body := {| problem := "Calculate: 20^5"; answer := 3200000;
                         difficulty := hard |};
              createdAt := 0 |}
  /\ QuestionGenerator.isValidAnswer 3200000 = false
  /\ fst second_call
     = Normal {| id := "3f2a-2";
                 body := {| problem := "Calculate: 1000 * 1000"; answer := 1000000;
                            difficulty := hard |};
                 createdAt := 9 |}
  /\ QuestionGenerator.drawn (snd second_call) = (4 + 50 * 4 + 3)%nat
  /\ QuestionGenerator.isValidAnswer 1000000 = false
  /\ QuestionGenerator.validEntropy (QuestionGenerator.entropy g)
  /\ (forall difficulty now s,
        exists q s', QuestionGenerator.generateQuestion difficulty now s = (Normal q, s')).
Proof.
  intros g first_call second_call.
  split; [|split; [|split; [|split; [|split; [|split]]]]];
    [vm_compute; reflexivity .. | |].
  { apply repeated_valid; reflexivity. }
  intros difficulty now s.
  destruct (generateQuestion_returns difficulty now s) as (q & s' & E & _).
  exists q, s'. exact E.
Qed.

(** C4 does not hold of the code. The inverse percentage template prints
    the whole rounded to an integer and stores the percentage it started
    from: with difficulty medium and the draws 0.8, 0, 0.99, 0.6 the
    question is [50 is what percent of 53?] with stored answer 95, while 50
    is 94.34 percent of 53; the two are 0.66 apart, far beyond two decimal
    places and beyond the tolerance of [submitAnswer]. And
    [generateArithmetic] stores 0 when none of its 20 expressions has a
    valid value: with difficulty hard and the draws 0.1, 0.5, 0.5, ... the
    question is [Calculate: 501 * 501 * 501] with stored answer 0, while
    the expression evaluates to 125751501. Every draw lies in [[0, 1)]. *)
Theorem generated_answer_mismatch :
  (let q := fst (QuestionGenerator.generateQuestion medium 0
                   (freshGenerator (draws [0.8; 0; 0.99; 0.6]%float) (fun _ => "3f2a"))) in
   QuestionGenerator.validEntropy (draws [0.8; 0; 0.99; 0.6]%float)
   /\ q = Normal {| id := "3f2a-1";
                 body := {| problem := "50 is what percent of 53?"; answer := 95;
                            difficulty := medium |};
                 createdAt := 0 |}
   /\ (JS.Math_round (50 / 53 * 100 * 100) / 100 = 94.34)%float
   /\ withinTolerance 94.34 95 = false
   /\ JS.lt (JS.Math_abs (95 - 50 / 53 * 100)%float) 0.005 = false)
  /\ (let q := fst (QuestionGenerator.generateQuestion hard 0
                      (freshGenerator (fun n => if Nat.eqb n 0 then 0.1 else 0.5)%float
                                      (fun _ => "3f2a"))) in
      let e := {| QuestionGenerator.first := 501;
                  QuestionGenerator.rest := [("*", 501); ("*", 501)]%float |} in
      QuestionGenerator.validEntropy (fun n => if Nat.eqb n 0 then 0.1 else 0.5)%float
      /\ q = Normal {| id := "3f2a-1";
                    body := {| problem := "Calculate: " +:+ QuestionGenerator.render e;
                               answer := 0; difficulty := hard |};
                    createdAt := 0 |}
      /\ QuestionGenerator.render e = "501 * 501 * 501"
      /\ QuestionGenerator.evaluate e = Normal 125751501%float).
Proof.
  split; [intros q | intros q e]; (split; [|split_and!; vm_compute; reflexivity]).
  - apply draws_valid. reflexivity.
  - intros n. destruct (Nat.eqb n 0); reflexivity.
Qed.

(* ===================================================================== *)
(** * Further properties of the session controller *)
(* ===================================================================== *)

Section ServiceFootprint.

Import GameService.

(** X1. A submission that returns without winning (no active round, wrong
    answer, or correct but late) leaves every field of the service as it
    was and does nothing to the outside: no ledger request, no
    announcement, no timer. *)
Theorem submitAnswer_without_win_is_noop :
  forall userId username answer now (s : Service) r s' effects,
    submitAnswer userId username answer now s = (Returned r, s', effects) ->
    s' = s /\ effects = [] /\ isWinner r = false.
Proof.
  intros userId username answer now [g users lock d c1 c2] r s' effects.
  unfold submitAnswer. simpl.
  destruct (isActive g), (currentQuestion g), (startTime g);
    try (intros [= <- <- <-]; auto).
  destruct (negb _); [intros [= <- <- <-]; auto|].
  destruct lock; simpl; [intros [= <- <- <-]; auto|].
  destruct (winner g); simpl; [intros [= <- <- <-]; auto | discriminate].
Qed.

Lemma submitAnswer_without_win_is_noop_witness :
  submitAnswer "u1" "alice" 41 1500 (Server.svc demoServer)
  = (Returned {| isCorrect := false; isWinner := false; submissionTime := 1500;
                 timeTaken := 1500 |},
     Server.svc demoServer, [])
  /\ (Server.svc demoServer = Server.svc demoServer
      /\ @nil Effect = []
      /\ isWinner {| isCorrect := false; isWinner := false; submissionTime := 1500;
                     timeTaken := 1500 |} = false).
Proof.
  assert (E : submitAnswer "u1" "alice" 41 1500 (Server.svc demoServer)
              = (Returned {| isCorrect := false; isWinner := false;
                             submissionTime := 1500; timeTaken := 1500 |},
                 Server.svc demoServer, []))
    by (vm_compute; reflexivity).
  split; [exact E|].
  exact (submitAnswer_without_win_is_noop _ _ _ _ _ _ _ _ E).
Defined.

(** X2. A submission that wins changes three things only: the winner record
    (the caller, at the time of the call), the active flag (off) and the
    lock (held). Question, start time, participants, connected users,
    difficulty and callbacks stay, and the only effect is one request to
    the score ledger, for the caller's name and the score of the elapsed
    time at the current difficulty. *)
Theorem submitAnswer_win_footprint :
  forall userId username answer now (s : Service) p s' effects,
    submitAnswer userId username answer now s = (Awaiting p, s', effects) ->
    exists start,
      startTime (gameState s) = Some start
      /\ p = {| p_userId := userId; p_username := username;
                p_submissionTime := now; p_timeTaken := now - start |}
      /\ s' = {| gameState :=
                   {| currentQuestion := currentQuestion (gameState s);
                      isActive := false;
                      startTime := startTime (gameState s);
                      winner := Some {| w_userId := userId; w_username := username;
                                        w_submissionTime := now |};
                      participants := participants (gameState s) |};
                 connectedUsers := connectedUsers s;
                 submissionLock := true;
                 currentDifficulty := currentDifficulty s;
                 questionChangeCallback := questionChangeCallback s;
                 winnerAnnouncementCallback := winnerAnnouncementCallback s |}
      /\ effects = [ScoreUpdate username (scoreFor (currentDifficulty s) (now - start))].
Proof.
  intros userId username answer now [[q a st w ps] users lock d c1 c2] p s' effects.
  unfold submitAnswer. simpl.
  destruct a, q as [question|], st as [start|]; try discriminate.
  destruct (negb _); [discriminate|].
  destruct lock; simpl; [discriminate|].
  destruct w; simpl; [discriminate|].
  intros [= <- <- <-]. exists start. split_and!; reflexivity.
Qed.

Lemma submitAnswer_win_footprint_witness :
  submitAnswer "u1" "alice" 42 1500 (Server.svc demoServer)
  = (Awaiting {| p_userId := "u1"; p_username := "alice";
                 p_submissionTime := 1500; p_timeTaken := 1500 |},
     snd (fst (submitAnswer "u1" "alice" 42 1500 (Server.svc demoServer))),
     [ScoreUpdate "alice" 108])
  /\ exists start,
       startTime (gameState (Server.svc demoServer)) = Some start
       /\ [ScoreUpdate "alice" 108]
          = [ScoreUpdate "alice"
               (scoreFor (currentDifficulty (Server.svc demoServer)) (1500 - start))].
Proof.
  assert (E : submitAnswer "u1" "alice" 42 1500 (Server.svc demoServer)
              = (Awaiting {| p_userId := "u1"; p_username := "alice";
                             p_submissionTime := 1500; p_timeTaken := 1500 |},
                 snd (fst (submitAnswer "u1" "alice" 42 1500 (Server.svc demoServer))),
                 [ScoreUpdate "alice" 108]))
    by (vm_compute; reflexivity).
  split; [exact E|].
  destruct (submitAnswer_win_footprint _ _ _ _ _ _ _ _ E) as (start & Hs & _ & _ & He).
  exists start. split; [exact Hs | exact He].
Defined.

(** X3. The score of a win: never below the base score of the difficulty
    (100, 250, 500, rising with the difficulty); at most 10 above it when
    the elapsed time is not negative; exactly the base score from 9001 ms
    on; and never higher for a slower answer. [updateUserScore] asks the
    ledger for exactly that amount. *)
Theorem score_bounds :
  (forall username timeTaken (s : Service),
     updateUserScore username timeTaken s
     = [ScoreUpdate username (scoreFor (currentDifficulty s) timeTaken)])
  /\ (getBaseScore easy < getBaseScore medium < getBaseScore hard)
  /\ (forall d t, getBaseScore d <= scoreFor d t)
  /\ (forall d t, scoreFor d (Z.max 0 t) <= getBaseScore d + 10)
  /\ (forall d t, scoreFor d (9001 + Z.max 0 t) = getBaseScore d)
  /\ (forall d t dt, scoreFor d (t + Z.max 0 dt) <= scoreFor d t).
Proof.
  split; [reflexivity|]. split; [simpl; lia|].
  unfold scoreFor. split_and!.
  - intros d t. pose proof (Z.div_pos (Z.max 0 (10000 - t)) 1000). lia.
  - intros d t.
    assert (Z.max 0 (10000 - Z.max 0 t) / 1000 <= 10000 / 1000)
      by (apply Z.div_le_mono; lia).
    change (10000 / 1000) with 10 in *. lia.
  - intros d t.
    replace (Z.max 0 (10000 - (9001 + Z.max 0 t)) / 1000) with 0; [lia|].
    symmetry. apply Z.div_small. lia.
  - intros d t dt.
    assert (Z.max 0 (10000 - (t + Z.max 0 dt)) / 1000 <= Z.max 0 (10000 - t) / 1000)
      by (apply Z.div_le_mono; lia).
    lia.
Qed.

End ServiceFootprint.

Section Presence.

Import GameService.

(** X4. The number of connected users counts sockets. Joining on a socket
    that is not connected raises it by one; joining again on a connected
    socket leaves it as it is; disconnecting a connected socket lowers it
    by one; and [removeUser] of a socket that is not connected changes
    nothing at all. *)
Theorem connected_users_count :
  forall socketId (s : Service),
    (forall userId username,
       getConnectedUsersCount (fst (addUser socketId userId username s))
       = match connectedUsers s !! socketId with
         | Some _ => getConnectedUsersCount s
         | None => S (getConnectedUsersCount s)
         end)
    /\ match connectedUsers s !! socketId with
       | Some _ => S (getConnectedUsersCount (removeUser socketId s))
                   = getConnectedUsersCount s
       | None => removeUser socketId s = s
       end.
Proof.
  intros socketId s. split.
  - intros userId username. unfold getConnectedUsersCount, addUser. simpl.
    destruct (connectedUsers s !! socketId) as [u|] eqn:E.
    + apply map_size_insert_Some. rewrite E. eauto.
    + apply map_size_insert_None. exact E.
  - unfold removeUser, getConnectedUsersCount.
    destruct (connectedUsers s !! socketId) as [u|] eqn:E; [|reflexivity].
    simpl. rewrite map_size_delete_Some by (rewrite E; eauto).
    assert (size (connectedUsers s) <> 0%nat); [|lia].
    apply map_size_ne_0_lookup. exists socketId. rewrite E. eauto.
Qed.

(** X5. Joining on a socket that was not connected and then disconnecting it
    restores the map of connected users, the round, the lock and the
    difficulty; of the participant set it removes the user's id, also when
    the id was a participant before the join (the same user on another
    socket). *)
Theorem addUser_then_removeUser :
  forall socketId userId username (s : Service),
    connectedUsers s !! socketId = None ->
    removeUser socketId (fst (addUser socketId userId username s))
    = setGameState
        (setParticipants (participants (gameState s) ∖ {[userId]}) (gameState s)) s.
Proof.
  intros socketId userId username [[q a st w ps] users lock d c1 c2] Hfresh.
  simpl in Hfresh. unfold removeUser, addUser. simpl.
  rewrite lookup_insert_eq. simpl.
  unfold setGameState, setParticipants, setConnectedUsers. simpl.
  rewrite delete_insert_id by exact Hfresh.
  f_equal. f_equal. apply set_eq. intros x.
  rewrite !elem_of_difference, elem_of_union, elem_of_singleton. tauto.
Qed.

Lemma addUser_then_removeUser_witness :
  connectedUsers (Server.svc demoServer) !! "s1" = None
  /\ removeUser "s1" (fst (addUser "s1" "u1" "alice" (Server.svc demoServer)))
     = setGameState
         (setParticipants
            (participants (gameState (Server.svc demoServer)) ∖ {["u1"]})
            (gameState (Server.svc demoServer)))
         (Server.svc demoServer).
Proof.
  assert (H : connectedUsers (Server.svc demoServer) !! "s1" = None)
    by (vm_compute; reflexivity).
  split; [exact H|].
  exact (addUser_then_removeUser "s1" "u1" "alice" (Server.svc demoServer) H).
Defined.

(** X6. From any state of the service and of the generator,
    [startNewQuestion] completes and installs a fresh round: a question, the
    active flag, the start time of the call, no winner, the lock free. The
    participant set becomes the set of connected socket ids (user ids that
    [addUser] had put there are gone unless they are socket ids too);
    connected users and callbacks stay, and the question is pushed to the
    question-change callback exactly when one is registered. *)
Theorem startNewQuestion_fresh_round :
  forall now (s : Service) gen,
  exists question gen',
    startNewQuestion now s gen
    = (Normal tt,
       {| gameState := {| currentQuestion := Some question; isActive := true;
                          startTime := Some now; winner := None;
                          participants := dom (connectedUsers s) |};
          connectedUsers := connectedUsers s;
          submissionLock := false;
          currentDifficulty := ladder (size (connectedUsers s));
          questionChangeCallback := questionChangeCallback s;
          winnerAnnouncementCallback := winnerAnnouncementCallback s |},
       gen',
       if questionChangeCallback s
       then [QuestionChanged question
               {| currentQuestion := Some question; isActive := true;
                  startTime := Some now; winner := None;
                  participants := dom (connectedUsers s) |}]
       else [])
    /\ QuestionGenerator.generateQuestion (ladder (size (connectedUsers s))) now gen
       = (Normal question, gen')
    /\ (forall x, x ∈ dom (connectedUsers s) <-> is_Some (connectedUsers s !! x)).
Proof.
  intros now s gen.
  assert (Hd : currentDifficulty (adjustDifficulty s) = ladder (size (connectedUsers s))).
  { unfold adjustDifficulty, ladder.
    destruct (_ <=? 2)%nat; [reflexivity|]. destruct (_ <=? 5)%nat; reflexivity. }
  assert (Hs : adjustDifficulty s
               = setCurrentDifficulty (ladder (size (connectedUsers s))) s).
  { unfold adjustDifficulty, ladder.
    destruct (_ <=? 2)%nat; [reflexivity|]. destruct (_ <=? 5)%nat; reflexivity. }
  destruct (generateQuestion_returns (ladder (size (connectedUsers s))) now gen)
    as (q & gen' & E & _).
  exists q, gen'. split; [|split; [exact E | intros x; apply elem_of_dom]].
  unfold startNewQuestion. rewrite Hd, E, Hs. reflexivity.
Qed.

(** X7. [forceNewQuestion] does exactly what [startNewQuestion] does: the
    fields it clears first are all overwritten by the new round. *)
Theorem forceNewQuestion_is_startNewQuestion :
  forall now (s : Service) gen,
    forceNewQuestion now s gen = startNewQuestion now s gen.
Proof.
  intros now [[q a st w ps] users lock d c1 c2] gen.
  unfold forceNewQuestion, startNewQuestion, adjustDifficulty. simpl.
  destruct (size users <=? 2)%nat; [|destruct (size users <=? 5)%nat]; simpl;
    match goal with
    | |- context [QuestionGenerator.generateQuestion ?d0 now gen] =>
        destruct (generateQuestion_returns d0 now gen) as (q0 & gen' & -> & _)
    end; reflexivity.
Qed.

End Presence.

Section ServerSettled.

Import GameService Server.

Lemma submitAnswer_keeps userId username answer now s :
  let s' := snd (fst (submitAnswer userId username answer now s)) in
  currentQuestion (gameState s') = currentQuestion (gameState s)
  /\ startTime (gameState s') = startTime (gameState s)
  /\ currentDifficulty s' = currentDifficulty s.
Proof.
  destruct s as [[q a st w ps] users lock d c1 c2].
  unfold submitAnswer. simpl.
  destruct a, q, st; simpl; auto.
  destruct (negb _); simpl; auto.
  destruct lock; simpl; auto. destruct w; simpl; auto.
Qed.

Lemma submitAnswer_awaiting_question userId username answer now s p s' effects :
  submitAnswer userId username answer now s = (Awaiting p, s', effects) ->
  currentQuestion (gameState s) <> None.
Proof.
  unfold submitAnswer.
  destruct (isActive (gameState s)), (currentQuestion (gameState s)),
    (startTime (gameState s)); discriminate.
Qed.

Lemma submitAnswer_resume_difficulty p db s :
  currentDifficulty (snd (fst (submitAnswer_resume p db s))) = currentDifficulty s.
Proof.
  unfold submitAnswer_resume.
  destruct (winnerAnnouncementCallback s);
    [destruct (currentQuestion (gameState s))|]; reflexivity.
Qed.

Lemma startNewQuestion_installs now s gen :
  let s' := snd (fst (fst (startNewQuestion now s gen))) in
  exists q,
    currentQuestion (gameState s') = Some q
    /\ isActive (gameState s') = true
    /\ startTime (gameState s') = Some now
    /\ submissionLock s' = false
    /\ currentDifficulty s' = difficultyOf q.
Proof.
  unfold startNewQuestion.
  destruct (generateQuestion_returns (currentDifficulty (adjustDifficulty s)) now gen)
    as (q & gen' & -> & Hd).
  exists q. simpl. rewrite Hd. auto.
Qed.

Lemma boot_settled gen0 : settled (boot gen0).
Proof. split; simpl; intros; try discriminate; congruence. Qed.

(** A step that begins a round. *)
Lemma settled_new_round sys sys' now s0 :
  svc sys' = snd (fst (fst (startNewQuestion now s0 (gen sys)))) ->
  settled sys'.
Proof.
  intros Hs.
  destruct (startNewQuestion_installs now s0 (gen sys)) as (q & Hq & Ha & Ht & Hl & Hd).
  rewrite <- Hs in Hq, Ha, Ht, Hl, Hd. split.
  - intros _. rewrite Hq, Ht. auto.
  - intros q' Hq'. rewrite Hq in Hq'. injection Hq' as <-. symmetry. exact Hd.
  - intros _. rewrite Hq. discriminate.
  - rewrite Hl. discriminate.
Qed.

(** A step that leaves round, difficulty, lock and suspended calls alone. *)
Lemma settled_frame sys sys' :
  settled sys ->
  suspended sys' = suspended sys ->
  currentQuestion (gameState (svc sys')) = currentQuestion (gameState (svc sys)) ->
  startTime (gameState (svc sys')) = startTime (gameState (svc sys)) ->
  isActive (gameState (svc sys')) = isActive (gameState (svc sys)) ->
  currentDifficulty (svc sys') = currentDifficulty (svc sys) ->
  (submissionLock (svc sys') = true -> submissionLock (svc sys) = true) ->
  settled sys'.
Proof.
  intros [J1 J2 J3 J4] Hsu Hq Ht Ha Hd Hl. split.
  - rewrite Ha, Hq, Ht. exact J1.
  - rewrite Hq, Hd. exact J2.
  - rewrite Hsu, Hq. exact J3.
  - rewrite Hsu. intros H. apply J4, Hl, H.
Qed.

Lemma step_settled a sys : settled sys -> settled (step a sys).
Proof.
  intros Hc. pose proof Hc as [J1 J2 J3 J4].
  destruct a as [userId username answer now | k db | now | now
                | socketId userId username | socketId | | ]; simpl.
  - pose proof (submitAnswer_keeps userId username answer now (svc sys))
      as (Kq & Kt & Kd).
    destruct (submitAnswer userId username answer now (svc sys))
      as [[[r | p] s'] effects] eqn:E; simpl in Kq, Kt, Kd.
    + apply submitAnswer_returned in E as (_ & Hg & Hl).
      apply (settled_frame sys); simpl; auto; rewrite Hg; reflexivity.
    + pose proof (submitAnswer_awaiting_question _ _ _ _ _ _ _ _ E) as Hq.
      apply submitAnswer_awaiting in E as (_ & _ & Hact).
      split; simpl.
      * rewrite Hact. discriminate.
      * rewrite Kq, Kd. exact J2.
      * intros _. rewrite Kq. exact Hq.
      * intros _. destruct (suspended sys); discriminate.
  - destruct (suspended sys !! k) as [[rd p] |] eqn:Hk; [|exact Hc].
    assert (Hne : suspended sys <> []) by (intros H0; rewrite H0 in Hk; discriminate Hk).
    pose proof (submitAnswer_resume_gameState p db (svc sys)) as [Hg Hl].
    pose proof (submitAnswer_resume_difficulty p db (svc sys)) as Hd.
    destruct (submitAnswer_resume p db (svc sys)) as [[[r |] s'] effects];
      simpl in Hg, Hl, Hd; split; simpl; rewrite ?Hg, ?Hd, ?Hl;
      auto; try discriminate; intros _; apply J3, Hne.
  - destruct (startNewQuestion now (svc sys) (gen sys)) as [[[c s'] gen'] effects] eqn:E.
    apply (settled_new_round sys _ now (svc sys)). rewrite E. reflexivity.
  - unfold forceNewQuestion.
    match goal with
    | |- context [startNewQuestion now ?s0 (gen sys)] =>
        destruct (startNewQuestion now s0 (gen sys)) as [[[c s'] gen'] effects] eqn:E;
        apply (settled_new_round sys _ now s0)
    end.
    rewrite E. reflexivity.
  - apply (settled_frame sys); auto.
  - apply (settled_frame sys); auto; simpl; unfold removeUser;
      destruct (connectedUsers (svc sys) !! socketId); auto.
  - apply (settled_frame sys); auto.
  - apply (settled_frame sys); auto.
Qed.

Lemma run_settled schedule : forall sys, settled sys -> settled (run schedule sys).
Proof.
  induction schedule as [|a schedule IH]; intros sys Hc; [exact Hc|].
  apply IH, step_settled, Hc.
Qed.

End ServerSettled.

(** ** Score-ledger failures and the lock *)

(** C7. A winning submission is a [submitAnswer] call suspended at the
    [await] of the score-ledger write. However the write settles, the
    resumed call releases the lock, also on the path where it throws; with a
    question in place it returns [{isCorrect: true, isWinner: true}] with
    the times of the call, changes nothing else in the service, and runs the
    whole round-closing sequence in order: the winner announcement with the
    winner's id, name and time and the round's answer (a [console.error]
    line in its place when no announcement callback is registered), then
    the 3000 ms timer of the next round. A failed write puts one
    [console.error] line in front of that sequence and changes nothing
    else: result and final state are those of a successful write, and the
    effects are the same ones in the same order. A call that returns
    without suspending leaves the lock as it found it. In every state the
    server reaches, each suspended call finds a question in place, so every
    winning submission ends this way. *)
Theorem submitAnswer_ledger_failure :
  (forall (p : GameService.Suspended) (s : GameService.Service),
     (forall db,
        GameService.submissionLock (snd (fst (GameService.submitAnswer_resume p db s)))
        = false)
     /\ (fst (GameService.submitAnswer_resume p GameService.Rejected s)
         = fst (GameService.submitAnswer_resume p GameService.Resolved s))
     /\ (snd (GameService.submitAnswer_resume p GameService.Rejected s)
         = GameService.LogError "Error updating user score:"
             :: snd (GameService.submitAnswer_resume p GameService.Resolved s))
     /\ (forall question db,
           GameService.currentQuestion (GameService.gameState s) = Some question ->
           GameService.submitAnswer_resume p db s
           = (Normal {| GameService.isCorrect := true; GameService.isWinner := true;
                        GameService.submissionTime := GameService.p_submissionTime p;
                        GameService.timeTaken := GameService.p_timeTaken p |},
              GameService.setSubmissionLock false s,
              match db with
              | GameService.Resolved => []
              | GameService.Rejected =>
                  [GameService.LogError "Error updating user score:"]
              end
              ++ [if GameService.winnerAnnouncementCallback s
                  then GameService.WinnerAnnounced
                         (GameService.p_userId p) (GameService.p_username p)
                         (GameService.p_timeTaken p) (answerOf question)
                  else GameService.LogError "Winner announcement callback is null!";
                  GameService.SetTimeout 3000]))
     /\ (forall userId username answer now r s' effects,
           GameService.submitAnswer userId username answer now s
           = (GameService.Returned r, s', effects) ->
           GameService.submissionLock s' = GameService.submissionLock s))
  /\ (forall (gen0 : QuestionGenerator.State) (schedule : list Server.Action)
             k rd p db,
        let sys := Server.run schedule (Server.boot gen0) in
        Server.suspended sys !! k = Some (rd, p) ->
        exists question,
          GameService.currentQuestion (GameService.gameState (Server.svc sys))
          = Some question
          /\ GameService.submitAnswer_resume p db (Server.svc sys)
             = (Normal {| GameService.isCorrect := true; GameService.isWinner := true;
                          GameService.submissionTime := GameService.p_submissionTime p;
                          GameService.timeTaken := GameService.p_timeTaken p |},
                GameService.setSubmissionLock false (Server.svc sys),
                match db with
                | GameService.Resolved => []
                | GameService.Rejected =>
                    [GameService.LogError "Error updating user score:"]
                end
                ++ [if GameService.winnerAnnouncementCallback (Server.svc sys)
                    then GameService.WinnerAnnounced
                           (GameService.p_userId p) (GameService.p_username p)
                           (GameService.p_timeTaken p) (answerOf question)
                    else GameService.LogError "Winner announcement callback is null!";
                    GameService.SetTimeout 3000])).
Proof.
  assert (Hfull : forall p db s question,
            GameService.currentQuestion (GameService.gameState s) = Some question ->
            GameService.submitAnswer_resume p db s
            = (Normal {| GameService.isCorrect := true; GameService.isWinner := true;
                         GameService.submissionTime := GameService.p_submissionTime p;
                         GameService.timeTaken := GameService.p_timeTaken p |},
               GameService.setSubmissionLock false s,
               match db with
               | GameService.Resolved => []
               | GameService.Rejected =>
                   [GameService.LogError "Error updating user score:"]
               end
               ++ [if GameService.winnerAnnouncementCallback s
                   then GameService.WinnerAnnounced
                          (GameService.p_userId p) (GameService.p_username p)
                          (GameService.p_timeTaken p) (answerOf question)
                   else GameService.LogError "Winner announcement callback is null!";
                   GameService.SetTimeout 3000])).
  { intros p db s question Hq. unfold GameService.submitAnswer_resume.
    rewrite Hq.
    destruct (GameService.winnerAnnouncementCallback s), db; reflexivity. }
  split.
  - intros p s. split; [|split; [|split; [|split]]].
    + intros db. unfold GameService.submitAnswer_resume.
      destruct (GameService.winnerAnnouncementCallback s);
        [destruct (GameService.currentQuestion (GameService.gameState s))|];
        reflexivity.
    + unfold GameService.submitAnswer_resume.
      destruct (GameService.winnerAnnouncementCallback s);
        [destruct (GameService.currentQuestion (GameService.gameState s))|];
        reflexivity.
    + unfold GameService.submitAnswer_resume.
      destruct (GameService.winnerAnnouncementCallback s);
        [destruct (GameService.currentQuestion (GameService.gameState s))|];
        reflexivity.
    + intros question db Hq. apply Hfull, Hq.
    + intros userId username answer now r s' effects H.
      unfold GameService.submitAnswer in H.
      destruct (GameService.isActive (GameService.gameState s)),
        (GameService.currentQuestion (GameService.gameState s)),
        (GameService.startTime (GameService.gameState s));
        try (injection H as _ <- _; reflexivity).
      destruct (negb _); [injection H as _ <- _; reflexivity|].
      destruct (GameService.submissionLock s) eqn:Hl; simpl in H;
        [injection H as _ <- _; exact Hl|].
      destruct (GameService.winner (GameService.gameState s)) eqn:Hw; simpl in H.
      * injection H as _ <- _. exact Hl.
      * try rewrite Hw in H. discriminate H.
  - intros gen0 schedule k rd p db sys Hk.
    destruct (run_settled schedule _ (boot_settled gen0)) as [_ _ J3 _].
    fold sys in J3.
    assert (Hne : Server.suspended sys <> [])
      by (intros H0; rewrite H0 in Hk; discriminate Hk).
    specialize (J3 Hne).
    destruct (GameService.currentQuestion (GameService.gameState (Server.svc sys)))
      as [question|] eqn:Hq; [|contradiction].
    exists question. split; [reflexivity|]. apply Hfull, Hq.
Qed.

(** In the running example alice answers 42 at 1500 and her call is
    suspended with the lock held and the winner record written; the ledger
    write then fails. Her call returns the winning result, the lock is
    released, and the effects are the error line, the announcement of alice
    with the answer 42, and the timer. *)
Lemma submitAnswer_ledger_failure_witness :
  let sys := Server.run [Server.CallSetQuestionChangeCallback;
                         Server.CallSetWinnerAnnouncementCallback;
                         Server.CallStartNewQuestion 0;
                         Server.CallSubmitAnswer "u1" "alice" 42 1500]
                        (Server.boot demoGen) in
  let p := {| GameService.p_userId := "u1"; GameService.p_username := "alice";
              GameService.p_submissionTime := 1500;
              GameService.p_timeTaken := 1500 |} in
  Server.suspended sys !! 0%nat = Some (1%nat, p)
  /\ GameService.submissionLock (Server.svc sys) = true
  /\ GameService.winner (GameService.gameState (Server.svc sys))
     = Some {| GameService.w_userId := "u1"; GameService.w_username := "alice";
               GameService.w_submissionTime := 1500 |}
  /\ (exists question,
        GameService.currentQuestion (GameService.gameState (Server.svc sys))
        = Some question
        /\ GameService.submitAnswer_resume p GameService.Rejected (Server.svc sys)
           = (Normal {| GameService.isCorrect := true; GameService.isWinner := true;
                        GameService.submissionTime := GameService.p_submissionTime p;
                        GameService.timeTaken := GameService.p_timeTaken p |},
              GameService.setSubmissionLock false (Server.svc sys),
              [GameService.LogError "Error updating user score:"]
              ++ [if GameService.winnerAnnouncementCallback (Server.svc sys)
                  then GameService.WinnerAnnounced
                         (GameService.p_userId p) (GameService.p_username p)
                         (GameService.p_timeTaken p) (answerOf question)
                  else GameService.LogError "Winner announcement callback is null!";
                  GameService.SetTimeout 3000]))
  /\ snd (GameService.submitAnswer_resume p GameService.Rejected (Server.svc sys))
     = [GameService.LogError "Error updating user score:";
        GameService.WinnerAnnounced "u1" "alice" 1500 42;
        GameService.SetTimeout 3000]
  /\ GameService.submissionLock
       (snd (fst (GameService.submitAnswer_resume p GameService.Rejected (Server.svc sys))))
     = false.
Proof.
  intros sys p.
  assert (H : Server.suspended sys !! 0%nat = Some (1%nat, p))
    by (vm_compute; reflexivity).
  split; [exact H|].
  split; [vm_compute; reflexivity|].
  split; [vm_compute; reflexivity|].
  split; [|split; vm_compute; reflexivity].
  apply (proj2 submitAnswer_ledger_failure _ _ 0%nat 1%nat p GameService.Rejected).
  exact H.
Defined.

(** X8. In every state the server reaches, an active round has its question
    and its start time (so the three-part guard of [submitAnswer] comes
    down to the active flag), and the service's current difficulty is the
    difficulty of the current question. Hence the ledger request of a
    winning submission carries the base score of the question that was
    answered. *)
Theorem round_well_formed :
  forall (gen0 : QuestionGenerator.State) (schedule : list Server.Action),
    let s := Server.svc (Server.run schedule (Server.boot gen0)) in
    accepting s = GameService.isActive (GameService.gameState s)
    /\ (forall q,
          GameService.currentQuestion (GameService.gameState s) = Some q ->
          difficultyOf q = GameService.currentDifficulty s)
    /\ (forall userId username answer now p s' effects,
          GameService.submitAnswer userId username answer now s
          = (GameService.Awaiting p, s', effects) ->
          exists q,
            GameService.currentQuestion (GameService.gameState s) = Some q
            /\ effects
               = [GameService.ScoreUpdate username
                    (scoreFor (difficultyOf q) (GameService.p_timeTaken p))]).
Proof.
  intros gen0 schedule s.
  destruct (run_settled schedule _ (boot_settled gen0)) as [J1 J2 _ _].
  fold s in J1, J2. split; [|split; [exact J2|]].
  - unfold accepting.
    destruct (GameService.isActive (GameService.gameState s)); [|reflexivity].
    destruct (J1 eq_refl) as [-> ->]. reflexivity.
  - intros userId username answer now p s' effects E.
    pose proof (submitAnswer_awaiting_question _ _ _ _ _ _ _ _ E) as Hq.
    destruct (GameService.currentQuestion (GameService.gameState s)) as [q|] eqn:Eq;
      [|contradiction].
    exists q. split; [reflexivity|].
    rewrite (J2 q eq_refl).
    unfold GameService.submitAnswer in E. rewrite Eq in E.
    destruct (GameService.isActive (GameService.gameState s)),
      (GameService.startTime (GameService.gameState s)); try discriminate.
    destruct (negb _); [discriminate|].
    destruct (GameService.submissionLock s); simpl in E; [discriminate|].
    destruct (GameService.winner (GameService.gameState s)) eqn:Ew; simpl in E;
      [discriminate|].
    try rewrite Ew in E. injection E as <- <- <-. reflexivity.
Qed.

(** X9. The lock is never left behind: in every state the server reaches,
    a held lock means that some [submitAnswer] call is suspended at its
    [await]; once no call is suspended the lock is free. *)
Theorem lock_never_stuck :
  forall (gen0 : QuestionGenerator.State) (schedule : list Server.Action),
    let sys := Server.run schedule (Server.boot gen0) in
    Server.suspended sys = [] ->
    GameService.submissionLock (Server.svc sys) = false.
Proof.
  intros gen0 schedule sys Hnone.
  destruct (run_settled schedule _ (boot_settled gen0)) as [_ _ _ J4].
  fold sys in J4.
  destruct (GameService.submissionLock (Server.svc sys)); [|reflexivity].
  exfalso. exact (J4 eq_refl Hnone).
Qed.

Lemma lock_never_stuck_witness :
  let sys := Server.run [Server.CallSetQuestionChangeCallback;
                         Server.CallSetWinnerAnnouncementCallback;
                         Server.CallStartNewQuestion 0;
                         Server.CallSubmitAnswer "u1" "alice" 42 1500;
                         Server.ResumeSubmitAnswer 0 GameService.Rejected]
                        (Server.boot demoGen) in
  Server.suspended sys = []
  /\ GameService.submissionLock (Server.svc sys) = false.
Proof.
  intros sys.
  assert (H : Server.suspended sys = []) by (vm_compute; reflexivity).
  split; [exact H|].
  apply lock_never_stuck. exact H.
Defined.

(** X10. In every state the server reaches, a suspended [submitAnswer] call
    that resumes completes normally, whatever the ledger did, and returns
    [{isCorrect: true, isWinner: true}] with the times of the call: the
    winner is never left without an answer. *)
Theorem resumed_winner_is_acknowledged :
  forall (gen0 : QuestionGenerator.State) (schedule : list Server.Action) k rd p db,
    let sys := Server.run schedule (Server.boot gen0) in
    Server.suspended sys !! k = Some (rd, p) ->
    fst (fst (GameService.submitAnswer_resume p db (Server.svc sys)))
    = Normal {| GameService.isCorrect := true; GameService.isWinner := true;
                GameService.submissionTime := GameService.p_submissionTime p;
                GameService.timeTaken := GameService.p_timeTaken p |}.
Proof.
  intros gen0 schedule k rd p db sys Hk.
  destruct (run_settled schedule _ (boot_settled gen0)) as [_ _ J3 _].
  fold sys in J3.
  assert (Hne : Server.suspended sys <> [])
    by (intros H0; rewrite H0 in Hk; discriminate Hk).
  specialize (J3 Hne). unfold GameService.submitAnswer_resume.
  destruct (GameService.winnerAnnouncementCallback (Server.svc sys)); [|reflexivity].
  destruct (GameService.currentQuestion (GameService.gameState (Server.svc sys)));
    [reflexivity | contradiction].
Qed.

Lemma resumed_winner_is_acknowledged_witness :
  let sys := Server.run [Server.CallSetQuestionChangeCallback;
                         Server.CallSetWinnerAnnouncementCallback;
                         Server.CallStartNewQuestion 0;
                         Server.CallSubmitAnswer "u1" "alice" 42 1500]
                        (Server.boot demoGen) in
  let p := {| GameService.p_userId := "u1"; GameService.p_username := "alice";
              GameService.p_submissionTime := 1500;
              GameService.p_timeTaken := 1500 |} in
  Server.suspended sys !! 0%nat = Some (1%nat, p)
  /\ fst (fst (GameService.submitAnswer_resume p GameService.Rejected (Server.svc sys)))
     = Normal {| GameService.isCorrect := true; GameService.isWinner := true;
                 GameService.submissionTime := 1500; GameService.timeTaken := 1500 |}.
Proof.
  intros sys p.
  assert (H : Server.suspended sys !! 0%nat = Some (1%nat, p))
    by (vm_compute; reflexivity).
  split; [exact H|].
  apply (resumed_winner_is_acknowledged _ _ 0%nat 1%nat p GameService.Rejected).
  exact H.
Defined.

(** ** Answers that are not finite numbers *)

Lemma SFcompare_finite_refl s m e :
  SFcompare (S754_finite s m e) (S754_finite s m e) = Some Eq.
Proof.
  simpl. rewrite Z.compare_refl, Pos.compare_cont_refl. destruct s; reflexivity.
Qed.

(** A float that is not finite is NaN or an infinity. *)
Lemma not_finite_parts (a : float) :
  JS.isFinite a = false ->
  Prim2SF a = S754_nan \/ exists s, Prim2SF a = S754_infinity s.
Proof.
  unfold JS.isFinite, is_finite, is_nan, is_infinity.
  rewrite !FloatAxioms.eqb_spec, abs_spec.
  destruct (Prim2SF a) as [s | s | | s m e] eqn:E; intros H.
  - destruct s; discriminate H.
  - right. exists s. reflexivity.
  - left. reflexivity.
  - exfalso. unfold SFeqb in H. rewrite SFcompare_finite_refl in H.
    simpl in H. discriminate H.
Qed.

Lemma not_finite_never_within (a v : float) :
  JS.isFinite a = false -> withinTolerance a v = false.
Proof.
  intros Ha. unfold withinTolerance, JS.lt, JS.Math_abs.
  rewrite ltb_spec, abs_spec, sub_spec.
  replace (Prim2SF 0.01) with (S754_finite false 5764607523034235 (-59))
    by (vm_compute; reflexivity).
  destruct (not_finite_parts a Ha) as [-> | [s ->]].
  - reflexivity.
  - destruct (Prim2SF v) as [sv | sv | | sv mv ev]; try reflexivity.
    destruct s, sv; reflexivity.
Qed.

(** X11. A submitted answer that is NaN or an infinity (both pass the
    transport layer's [typeof answer === "number"] test) is never judged
    correct, whatever the round's answer: the call returns at once with
    [isCorrect: false] and [isWinner: false], and the service is
    unchanged. *)
Theorem submitAnswer_not_finite :
  forall userId username answer now (s : GameService.Service),
    JS.isFinite answer = false ->
    exists timeTaken,
      GameService.submitAnswer userId username answer now s
      = (GameService.Returned
           {| GameService.isCorrect := false; GameService.isWinner := false;
              GameService.submissionTime := now;
              GameService.timeTaken := timeTaken |},
         s, []).
Proof.
  intros userId username answer now s Ha.
  destruct (GameService.isActive (GameService.gameState s)) eqn:Hact.
  - destruct (GameService.currentQuestion (GameService.gameState s)) as [q|] eqn:Hq;
      [destruct (GameService.startTime (GameService.gameState s)) as [start|] eqn:Hs|].
    + exists (now - start).
      rewrite (submitAnswer_open userId username answer now s q start Hact Hq Hs).
      pose proof (not_finite_never_within answer (answerOf q) Ha) as Hw.
      unfold withinTolerance in Hw. simpl. rewrite Hw. reflexivity.
    + exists 0. apply submitAnswer_closed. unfold accepting.
      rewrite Hs. apply andb_false_r.
    + exists 0. apply submitAnswer_closed. unfold accepting.
      rewrite Hq, Hact. reflexivity.
  - exists 0. apply submitAnswer_closed. unfold accepting. rewrite Hact. reflexivity.
Qed.

Lemma submitAnswer_not_finite_witness :
  JS.isFinite PrimFloat.infinity = false
  /\ exists timeTaken,
       GameService.submitAnswer "u1" "alice" PrimFloat.infinity 1500
         (Server.svc demoServer)
       = (GameService.Returned
            {| GameService.isCorrect := false; GameService.isWinner := false;
               GameService.submissionTime := 1500;
               GameService.timeTaken := timeTaken |},
          Server.svc demoServer, []).
Proof.
  split; [reflexivity|].
  apply (submitAnswer_not_finite "u1" "alice" PrimFloat.infinity 1500
           (Server.svc demoServer)).
  reflexivity.
Defined.

(* ===================================================================== *)
(** * Further properties of the question generator *)
(* ===================================================================== *)

Section GeneratorDraws.

Import QuestionGenerator.

Lemma onlyDraws_ret {A} (a : A) : onlyDraws (ret a).
Proof. intros s. reflexivity. Qed.

Lemma onlyDraws_bind {A B} (m : M A) (k : A -> M B) :
  onlyDraws m -> (forall a, onlyDraws (k a)) -> onlyDraws (bind m k).
Proof.
  intros Hm Hk s. unfold bind. specialize (Hm s).
  destruct (m s) as [[a|] s1]; simpl in *; [|exact Hm].
  rewrite (Hk a s1). exact Hm.
Qed.

Lemma onlyDraws_lift {A} (c : Completion A) : onlyDraws (lift c).
Proof. intros s. reflexivity. Qed.

Lemma onlyDraws_Math_random : onlyDraws Math_random.
Proof. intros s. reflexivity. Qed.

Create HintDb draws discriminated.
#[local] Hint Resolve onlyDraws_Math_random : draws.

Ltac walk_draws :=
  repeat match goal with
    | |- onlyDraws (bind _ _) => apply onlyDraws_bind; [|intros ?]
    | |- onlyDraws (ret _) => apply onlyDraws_ret
    | |- onlyDraws (lift _) => apply onlyDraws_lift
    | |- onlyDraws (if ?b then _ else _) => destruct b
    | |- onlyDraws (match ?x with Some _ => _ | None => _ end) => destruct x
    | |- onlyDraws (match ?x with Normal _ => _ | Throw => _ end) => destruct x
    | |- _ => progress cbv zeta
    | |- _ => solve [auto with draws]
    end.

Lemma onlyDraws_randomNumber lo hi : onlyDraws (randomNumber lo hi).
Proof. unfold randomNumber. walk_draws. Qed.

Lemma onlyDraws_choose {A} (l : list A) n : onlyDraws (choose l n).
Proof. unfold choose. walk_draws. Qed.

#[local] Hint Resolve onlyDraws_randomNumber onlyDraws_choose : draws.

Lemma onlyDraws_findDivisor num : onlyDraws (findDivisor num).
Proof. unfold findDivisor. walk_draws. Qed.

#[local] Hint Resolve onlyDraws_findDivisor : draws.

Lemma onlyDraws_expressionLoop fuel config numTerms :
  forall i expression, onlyDraws (expressionLoop fuel config numTerms i expression).
Proof. induction fuel as [|fuel IH]; intros i expression; simpl; walk_draws. Qed.

#[local] Hint Resolve onlyDraws_expressionLoop : draws.

Lemma onlyDraws_generateArithmeticExpression config numTerms :
  onlyDraws (generateArithmeticExpression config numTerms).
Proof. unfold generateArithmeticExpression. walk_draws. Qed.

#[local] Hint Resolve onlyDraws_generateArithmeticExpression : draws.

Lemma onlyDraws_arithmeticLoop fuel config numTerms :
  forall expression answer,
    onlyDraws (arithmeticLoop fuel config numTerms expression answer).
Proof.
  induction fuel as [|fuel IH]; intros expression answer; simpl; walk_draws.
Qed.

#[local] Hint Resolve onlyDraws_arithmeticLoop : draws.

Lemma onlyDraws_generateArithmetic d : onlyDraws (generateArithmetic d).
Proof. unfold generateArithmetic. walk_draws. Qed.

Lemma onlyDraws_generateAlgebra d : onlyDraws (generateAlgebra d).
Proof. unfold generateAlgebra. walk_draws. Qed.

Lemma onlyDraws_generateFractions d : onlyDraws (generateFractions d).
Proof. unfold generateFractions. walk_draws. Qed.

Lemma onlyDraws_generatePercentages d : onlyDraws (generatePercentages d).
Proof. unfold generatePercentages. walk_draws. Qed.

Lemma onlyDraws_generatePowers d : onlyDraws (generatePowers d).
Proof. unfold generatePowers. walk_draws. Qed.

Lemma onlyDraws_generateMixed d : onlyDraws (generateMixed d).
Proof. unfold generateMixed. walk_draws. Qed.

#[local] Hint Resolve onlyDraws_generateArithmetic onlyDraws_generateAlgebra
  onlyDraws_generateFractions onlyDraws_generatePercentages
  onlyDraws_generatePowers onlyDraws_generateMixed : draws.

Lemma onlyDraws_getRandomQuestionType d : onlyDraws (getRandomQuestionType d).
Proof. unfold getRandomQuestionType. walk_draws. Qed.

Lemma onlyDraws_byType type d : onlyDraws (generateQuestionByType type d).
Proof. unfold generateQuestionByType. walk_draws. Qed.

(** [nextId] counts one question, uses one uuid, and returns the id made
    of the two. *)
Lemma nextId_result s :
  exists s', nextId s
             = (Normal (uuids s (issued s) +:+ "-" +:+ str (JS.ofZ (questionCounter s + 1))),
                s')
             /\ countedOnce s s'
             /\ generatedQuestions s' = generatedQuestions s.
Proof. eexists. split; [reflexivity|]. repeat split. Qed.

Lemma generateSimpleArithmetic_result d now s :
  exists q s',
    generateSimpleArithmetic d now s = (Normal q, s')
    /\ countedOnce s s' /\ stamped s now q
    /\ generatedQuestions s' = generatedQuestions s.
Proof.
  unfold generateSimpleArithmetic, bind.
  pose proof (onlyDraws_randomNumber (min (DIFFICULTY_CONFIG d)) (max (DIFFICULTY_CONFIG d)) s)
    as H1.
  destruct (neverThrows_randomNumber (min (DIFFICULTY_CONFIG d)) (max (DIFFICULTY_CONFIG d)) s)
    as [a Ha].
  destruct (randomNumber _ _ s) as [c1 s1]. simpl in Ha, H1. subst c1.
  pose proof (onlyDraws_randomNumber (min (DIFFICULTY_CONFIG d)) (max (DIFFICULTY_CONFIG d)) s1)
    as H2.
  destruct (neverThrows_randomNumber (min (DIFFICULTY_CONFIG d)) (max (DIFFICULTY_CONFIG d)) s1)
    as [b Hb].
  destruct (randomNumber _ _ s1) as [c2 s2]. simpl in Hb, H2. subst c2.
  match goal with
  | |- context [choose ?l ?n s2] =>
      pose proof (onlyDraws_choose l n s2) as H3;
      destruct (neverThrows_choose l n s2) as [op Hop];
      destruct (choose l n s2) as [c3 s3]
  end.
  simpl in Hop, H3. subst c3.
  destruct (nextId_result s3) as (s4 & -> & Hc & Hh).
  unfold apartFromDraws in H1, H2, H3.
  injection H1 as E1 U1 I1 G1 C1. injection H2 as E2 U2 I2 G2 C2.
  injection H3 as E3 U3 I3 G3 C3.
  destruct Hc as (Ec & Uc & Ic & Cc).
  eexists _, s4. split; [reflexivity|]. unfold countedOnce, stamped. simpl.
  rewrite Ec, Uc, Ic, Cc, Hh. unfold str.
  repeat split; congruence.
Qed.

(** One pass of the [try] block, in full. *)
Lemma attempt_result d now s :
  match attempt d now s with
  | (Normal (Some q), s') =>
      countedOnce s s' /\ stamped s now q /\ difficultyOf q = d
      /\ generatedQuestions s'
         = remember (questionKey (body q)) (generatedQuestions s)
      /\ (Set_has (questionKey (body q)) (generatedQuestions s) = false
          \/ (100 < length (generatedQuestions s))%nat)
  | (_, s') => apartFromDraws s' = apartFromDraws s
  end.
Proof.
  destruct (attempt d now s) as [c s'] eqn:E.
  unfold attempt, bind, get, modify in E.
  pose proof (onlyDraws_getRandomQuestionType d s) as H1.
  destruct (getRandomQuestionType d s) as [[ty|] s1]; simpl in H1;
    [|injection E as <- <-; exact H1].
  pose proof (onlyDraws_byType ty d s1) as H2.
  pose proof (difficulty_generateQuestionByType ty d s1) as Hd.
  destruct (generateQuestionByType ty d s1) as [[q|] s2]; simpl in H2;
    [|injection E as <- <-; congruence].
  specialize (Hd q s2 eq_refl).
  assert (H12 : apartFromDraws s2 = apartFromDraws s) by congruence.
  unfold apartFromDraws in H12. injection H12 as E2 U2 I2 G2 C2.
  destruct (negb (Set_has (questionKey q) (generatedQuestions s2))
            || (100 <? length (generatedQuestions s2))%nat) eqn:Hacc;
    [|injection E as <- <-; unfold apartFromDraws; congruence].
  match type of E with
  | context [nextId ?s3] =>
      destruct (nextId_result s3) as (s4 & E4 & Hc & Hh); rewrite E4 in E
  end.
  injection E as <- <-. destruct Hc as (Ec & Uc & Ic & Cc). simpl in *.
  unfold countedOnce, stamped, difficultyOf, str. simpl.
  rewrite Ec, Uc, Ic, Cc, Hh.
  split; [repeat split; congruence|]. split; [split; congruence|].
  split; [exact Hd|]. split; [congruence|].
  rewrite <- G2. apply orb_true_iff in Hacc as [Hn | Hl].
  - left. apply negb_true_iff, Hn.
  - right. apply Nat.ltb_lt, Hl.
Qed.

(** [generateQuestion] in full: the question returned, what it did to the
    counters, and what it did to the set of recent keys. *)
Lemma attempts_result d now fuel : forall s,
  exists q s',
    attempts fuel d now s = (Normal q, s')
    /\ countedOnce s s' /\ stamped s now q /\ difficultyOf q = d
    /\ (generatedQuestions s' = generatedQuestions s
        \/ (generatedQuestions s'
            = remember (questionKey (body q)) (generatedQuestions s)
            /\ (Set_has (questionKey (body q)) (generatedQuestions s) = false
                \/ (100 < length (generatedQuestions s))%nat))).
Proof.
  induction fuel as [|fuel IH]; intros s.
  - destruct (generateSimpleArithmetic_result d now s) as (q & s' & E & Hc & Hst & Hh).
    exists q, s'. simpl. split; [exact E|]. split; [exact Hc|]. split; [exact Hst|].
    split; [|left; exact Hh].
    exact (difficulty_generateSimpleArithmetic d now s q s' E).
  - change (attempts (S fuel) d now s)
      with (bind (tryCatch (attempt d now) (ret None))
              (fun r => match r with
                        | Some q => ret q
                        | None => attempts fuel d now
                        end) s).
    unfold bind, tryCatch.
    pose proof (attempt_result d now s) as Ha.
    destruct (attempt d now s) as [[[q|]|] s1].
    + destruct Ha as (Hc & Hst & Hd & Hh & Hnew).
      exists q, s1. simpl. auto 10.
    + destruct (IH s1) as (q & s' & E & Hc & Hst & Hd & Hh).
      unfold apartFromDraws in Ha. injection Ha as E1 U1 I1 G1 C1.
      exists q, s'. split; [exact E|].
      unfold countedOnce, stamped in *. rewrite <- ?E1, <- ?U1, <- ?I1, <- ?G1, <- ?C1.
      auto.
    + unfold ret at 1.
      destruct (IH s1) as (q & s' & E & Hc & Hst & Hd & Hh).
      unfold apartFromDraws in Ha. injection Ha as E1 U1 I1 G1 C1.
      exists q, s'. split; [exact E|].
      unfold countedOnce, stamped in *. rewrite <- ?E1, <- ?U1, <- ?I1, <- ?G1, <- ?C1.
      auto.
Qed.

(** Rejected attempts only consume random draws. *)
Lemma afterRejected_keeps d now n : forall s s1,
  afterRejected n d now s = Some s1 -> apartFromDraws s1 = apartFromDraws s.
Proof.
  induction n as [|n IH]; intros s s1 H; simpl in H.
  - injection H as <-. reflexivity.
  - pose proof (attempt_result d now s) as Ha.
    destruct (attempt d now s) as [[[q|]|] s2]; [discriminate H| |];
      rewrite (IH _ _ H); exact Ha.
Qed.

(** A rejected attempt drew a candidate whose key is in the set, which
    holds no more than 100 keys. *)
Lemma attempt_rejected d now s s1 :
  attempt d now s = (Normal None, s1) ->
  exists c, candidate d s = (Normal c, s1)
            /\ Set_has (questionKey c) (generatedQuestions s) = true
            /\ (length (generatedQuestions s) <= 100)%nat.
Proof.
  unfold attempt, candidate, bind, get, modify. intros E.
  pose proof (onlyDraws_getRandomQuestionType d s) as H1.
  destruct (getRandomQuestionType d s) as [[ty|] s2]; simpl in H1;
    [|discriminate E].
  pose proof (onlyDraws_byType ty d s2) as H2.
  destruct (generateQuestionByType ty d s2) as [[q|] s3]; simpl in H2;
    [|discriminate E].
  assert (H12 : apartFromDraws s3 = apartFromDraws s) by congruence.
  unfold apartFromDraws in H12. injection H12 as _ _ _ G _.
  destruct (negb (Set_has (questionKey q) (generatedQuestions s3))
            || (100 <? length (generatedQuestions s3))%nat) eqn:Hacc.
  - match type of E with
    | context [nextId ?s4] =>
        destruct (nextId_result s4) as (s5 & E5 & _); rewrite E5 in E
    end.
    discriminate E.
  - injection E as <-. exists q. split; [reflexivity|].
    apply orb_false_iff in Hacc as [Hn Hl]. rewrite <- G.
    split; [apply negb_false_iff, Hn | apply Nat.ltb_ge, Hl].
Qed.

(** The path a call of [generateQuestion] takes: some attempts rejected and
    then one accepted, or all of them rejected and then the fallback. *)
Lemma attempts_trace d now fuel : forall s,
  exists q s',
    attempts fuel d now s = (Normal q, s')
    /\ ((exists n s1, (n < fuel)%nat
           /\ afterRejected n d now s = Some s1
           /\ attempt d now s1 = (Normal (Some q), s'))
        \/ (exists s1, afterRejected fuel d now s = Some s1
           /\ generateSimpleArithmetic d now s1 = (Normal q, s'))).
Proof.
  induction fuel as [|fuel IH]; intros s.
  - destruct (generateSimpleArithmetic_result d now s) as (q & s' & E & _).
    exists q, s'. split; [exact E|]. right. exists s. split; [reflexivity | exact E].
  - change (attempts (S fuel) d now s)
      with (bind (tryCatch (attempt d now) (ret None))
              (fun r => match r with
                        | Some q => ret q
                        | None => attempts fuel d now
                        end) s).
    unfold bind, tryCatch.
    destruct (attempt d now s) as [[[q|]|] s1] eqn:Ea.
    + exists q, s1. split; [reflexivity|]. left. exists 0%nat, s.
      split; [lia|]. split; [reflexivity | exact Ea].
    + destruct (IH s1) as (q & s' & E & [(n & s2 & Hn & Hr & Hacc) | (s2 & Hr & Hf)]);
        exists q, s'; (split; [exact E|]).
      * left. exists (S n), s2. split; [lia|]. simpl. rewrite Ea. auto.
      * right. exists s2. simpl. rewrite Ea. auto.
    + unfold ret at 1.
      destruct (IH s1) as (q & s' & E & [(n & s2 & Hn & Hr & Hacc) | (s2 & Hr & Hf)]);
        exists q, s'; (split; [exact E|]).
      * left. exists (S n), s2. split; [lia|]. simpl. rewrite Ea. auto.
      * right. exists s2. simpl. rewrite Ea. auto.
Qed.

End GeneratorDraws.

(** X12. Every call of [generateQuestion] returns a question of the
    difficulty asked for, stamped with the time of the call, and, however
    many attempts it took, counts exactly one question and uses exactly one
    uuid: the id is that uuid, a dash, and the new value of the counter. *)
Theorem generateQuestion_counts_once :
  forall difficulty now (s : QuestionGenerator.State),
  exists q s',
    QuestionGenerator.generateQuestion difficulty now s = (Normal q, s')
    /\ difficultyOf q = difficulty
    /\ createdAt q = now
    /\ id q = QuestionGenerator.uuids s (QuestionGenerator.issued s) +:+ "-"
              +:+ JS.Number_toString (JS.ofZ (QuestionGenerator.questionCounter s + 1))
    /\ QuestionGenerator.questionCounter s' = QuestionGenerator.questionCounter s + 1
    /\ QuestionGenerator.issued s' = S (QuestionGenerator.issued s)
    /\ QuestionGenerator.uuids s' = QuestionGenerator.uuids s
    /\ QuestionGenerator.entropy s' = QuestionGenerator.entropy s.
Proof.
  intros difficulty now s.
  destruct (attempts_result difficulty now QuestionGenerator.maxAttempts s)
    as (q & s' & E & (He & Hu & Hi & Hc) & (Hid & Ht) & Hd & _).
  exists q, s'. split; [exact E|]. split_and!; assumption.
Qed.

(** X13. While the set of recent keys holds at most 100 entries, a call of
    [generateQuestion] never accepts a recent repeat. The question it
    returns comes about in one of two ways. Either fewer than 50 attempts
    were rejected and the next one was accepted: then the question is that
    attempt's, its key was not in the set, and the key is appended to the
    set. Or all 50 attempts were rejected: then the question is the one
    [generateSimpleArithmetic] makes, and the set is unchanged (the
    fallback's key is neither checked nor recorded). And every attempt that
    was rejected without a throw had drawn a candidate whose key is in the
    set. *)
Theorem generateQuestion_no_recent_repeat :
  forall difficulty now (s : QuestionGenerator.State),
    (length (QuestionGenerator.generatedQuestions s) <= 100)%nat ->
    (exists q s',
       QuestionGenerator.generateQuestion difficulty now s = (Normal q, s')
       /\ ((exists n s1,
              (n < 50)%nat
              /\ afterRejected n difficulty now s = Some s1
              /\ QuestionGenerator.attempt difficulty now s1 = (Normal (Some q), s')
              /\ ~ In (QuestionGenerator.questionKey (body q))
                      (QuestionGenerator.generatedQuestions s)
              /\ QuestionGenerator.generatedQuestions s'
                 = QuestionGenerator.generatedQuestions s
                   ++ [QuestionGenerator.questionKey (body q)])
           \/ (exists s1,
                 afterRejected 50 difficulty now s = Some s1
                 /\ QuestionGenerator.generateSimpleArithmetic difficulty now s1
                    = (Normal q, s')
                 /\ QuestionGenerator.generatedQuestions s'
                    = QuestionGenerator.generatedQuestions s)))
    /\ (forall n s1 s2,
          afterRejected n difficulty now s = Some s1 ->
          QuestionGenerator.attempt difficulty now s1 = (Normal None, s2) ->
          exists c,
            candidate difficulty s1 = (Normal c, s2)
            /\ In (QuestionGenerator.questionKey c)
                  (QuestionGenerator.generatedQuestions s)).
Proof.
  intros difficulty now s Hlen. split.
  - destruct (attempts_trace difficulty now QuestionGenerator.maxAttempts s)
      as (q & s' & E & [(n & s1 & Hn & Hr & Hacc) | (s1 & Hr & Hf)]);
      exists q, s'; (split; [exact E|]);
      pose proof (afterRejected_keeps _ _ _ _ _ Hr) as Hk;
      unfold apartFromDraws in Hk; injection Hk as _ _ _ G _.
    + left. exists n, s1. split; [exact Hn|]. split; [exact Hr|].
      split; [exact Hacc|].
      pose proof (attempt_result difficulty now s1) as Ha. rewrite Hacc in Ha.
      destruct Ha as (_ & _ & _ & Hh & Hnew). rewrite G in Hh, Hnew.
      destruct Hnew as [Hnew | Hbig]; [|lia].
      assert (Hnot : ~ In (QuestionGenerator.questionKey (body q))
                          (QuestionGenerator.generatedQuestions s)).
      { intros Hin. apply Set_has_In in Hin. congruence. }
      split; [exact Hnot|].
      rewrite Hh. unfold QuestionGenerator.remember.
      destruct (Set_add_spec (QuestionGenerator.questionKey (body q))
                  (QuestionGenerator.generatedQuestions s)) as [[Hin _] | [_ ->]];
        [contradiction|].
      destruct (Nat.ltb_spec 150 (length (QuestionGenerator.generatedQuestions s
                                           ++ [QuestionGenerator.questionKey (body q)])))
        as [Hb | _]; [|reflexivity].
      rewrite length_app in Hb. change (length [_]) with 1%nat in Hb. lia.
    + right. exists s1. split; [exact Hr|]. split; [exact Hf|].
      destruct (generateSimpleArithmetic_result difficulty now s1)
        as (q' & s'' & E' & _ & _ & Hh).
      rewrite Hf in E'. injection E' as _ <-. congruence.
  - intros n s1 s2 Hr Hrej.
    pose proof (afterRejected_keeps _ _ _ _ _ Hr) as Hk.
    unfold apartFromDraws in Hk. injection Hk as _ _ _ G _.
    destruct (attempt_rejected _ _ _ _ Hrej) as (c & Hc & Hin & _).
    exists c. split; [exact Hc|]. rewrite <- G. apply Set_has_In, Hin.
Qed.

(** A generator whose random draws repeat: the first call returns
    [Calculate: 40 + 2]; in the second call all 50 attempts draw that
    question again and are rejected, and the fallback question
    [Calculate: 16 - 31] is returned with the set of recent keys as it
    was. *)
Lemma generateQuestion_no_recent_repeat_witness :
  let s := snd (QuestionGenerator.generateQuestion easy 0
                  (freshGenerator
                     (repeated 51 [0.1; 0.5; 0.78; 0.1; 0.02] [0.3; 0.6; 0.4])%float
                     (fun _ => "3f2a"))) in
  QuestionGenerator.generatedQuestions s = ["Calculate: 40 + 2-42"]
  /\ (length (QuestionGenerator.generatedQuestions s) <= 100)%nat
  /\ fst (candidate easy s)
     = Normal {| problem := "Calculate: 40 + 2"; answer := 42; difficulty := easy |}
  /\ fst (QuestionGenerator.generateQuestion easy 7 s)
     = Normal {| id := "3f2a-2";
                 body := {| problem := "Calculate: 16 - 31"; answer := -15;
                            difficulty := easy |};
                 createdAt := 7 |}
  /\ ((exists q s',
         QuestionGenerator.generateQuestion easy 7 s = (Normal q, s')
         /\ ((exists n s1,
                (n < 50)%nat
                /\ afterRejected n easy 7 s = Some s1
                /\ QuestionGenerator.attempt easy 7 s1 = (Normal (Some q), s')
                /\ ~ In (QuestionGenerator.questionKey (body q))
                        (QuestionGenerator.generatedQuestions s)
                /\ QuestionGenerator.generatedQuestions s'
                   = QuestionGenerator.generatedQuestions s
                     ++ [QuestionGenerator.questionKey (body q)])
             \/ (exists s1,
                   afterRejected 50 easy 7 s = Some s1
                   /\ QuestionGenerator.generateSimpleArithmetic easy 7 s1
                      = (Normal q, s')
                   /\ QuestionGenerator.generatedQuestions s'
                      = QuestionGenerator.generatedQuestions s)))
      /\ (forall n s1 s2,
            afterRejected n easy 7 s = Some s1 ->
            QuestionGenerator.attempt easy 7 s1 = (Normal None, s2) ->
            exists c,
              candidate easy s1 = (Normal c, s2)
              /\ In (QuestionGenerator.questionKey c)
                    (QuestionGenerator.generatedQuestions s))).
Proof.
  intros s.
  assert (H : (length (QuestionGenerator.generatedQuestions s) <= 100)%nat)
    by (vm_compute; lia).
  split; [vm_compute; reflexivity|].
  split; [exact H|].
  split; [vm_compute; reflexivity|].
  split; [vm_compute; reflexivity|].
  exact (generateQuestion_no_recent_repeat easy 7 s H).
Defined.

Section QuestionSets.

Import QuestionGenerator.

Lemma questionSetLoop_result d now count : forall s acc,
  exists qs s',
    questionSetLoop count d now acc s = (Normal (acc ++ qs), s')
    /\ length qs = count
    /\ Forall (fun q => difficultyOf q = d /\ createdAt q = now) qs
    /\ questionCounter s' = questionCounter s + Z.of_nat count
    /\ issued s' = (issued s + count)%nat.
Proof.
  induction count as [|count IH]; intros s acc.
  - exists [], s. simpl. rewrite app_nil_r.
    split; [reflexivity|]. split_and!; auto; lia.
  - destruct (attempts_result d now maxAttempts s)
      as (q & s1 & E & (_ & _ & Hi & Hc) & (_ & Ht) & Hd & _).
    destruct (IH s1 (acc ++ [q])) as (qs & s' & E' & Hlen & Hall & Hc' & Hi').
    exists (q :: qs), s'.
    change (questionSetLoop (S count) d now acc s)
      with (bind (generateQuestion d now)
              (fun q => questionSetLoop count d now (acc ++ [q])) s).
    unfold bind, generateQuestion. rewrite E, E'.
    rewrite <- app_assoc. split; [reflexivity|].
    split_and!; [simpl; lia | constructor; auto | lia | lia].
Qed.

End QuestionSets.

(** X14. [generateQuestionSet(count, difficulty)] returns exactly [count]
    questions, each of the difficulty asked for and stamped with the time
    of the call, and counts [count] questions and uses [count] uuids. *)
Theorem generateQuestionSet_size :
  forall count difficulty now (s : QuestionGenerator.State),
  exists qs s',
    QuestionGenerator.generateQuestionSet count difficulty now s = (Normal qs, s')
    /\ length qs = count
    /\ Forall (fun q => difficultyOf q = difficulty /\ createdAt q = now) qs
    /\ QuestionGenerator.questionCounter s'
       = QuestionGenerator.questionCounter s + Z.of_nat count
    /\ QuestionGenerator.issued s' = (QuestionGenerator.issued s + count)%nat.
Proof.
  intros count difficulty now s.
  destruct (questionSetLoop_result difficulty now count s [])
    as (qs & s' & E & H).
  exists qs, s'. split; [exact E | exact H].
Qed.

(** X15. After [resetQuestionHistory] the count restarts: the next question
    gets the id (next uuid)-1, and the set of recent keys holds at most the
    key of that question. *)
Theorem reset_then_generate :
  forall difficulty now (s : QuestionGenerator.State),
    let s0 := snd (QuestionGenerator.resetQuestionHistory s) in
    exists q s',
      QuestionGenerator.generateQuestion difficulty now s0 = (Normal q, s')
      /\ id q = QuestionGenerator.uuids s (QuestionGenerator.issued s) +:+ "-1"
      /\ QuestionGenerator.questionCounter s' = 1
      /\ (QuestionGenerator.generatedQuestions s' = []
          \/ QuestionGenerator.generatedQuestions s'
             = [QuestionGenerator.questionKey (body q)]).
Proof.
  intros difficulty now s s0.
  destruct (attempts_result difficulty now QuestionGenerator.maxAttempts s0)
    as (q & s' & E & (_ & _ & _ & Hc) & (Hid & _) & _ & Hh).
  exists q, s'. split; [exact E|]. split; [exact Hid|]. split; [exact Hc|].
  destruct Hh as [Hh | [Hh _]]; [left; exact Hh | right; exact Hh].
Qed.

(* ===================================================================== *)
(** * Properties of the routes *)
(* ===================================================================== *)

(** X16. The leaderboard limit is never above 50. It is 10 when the query
    gives no number or gives 0, the number itself from 1 to 50, and 50 for
    anything larger; a negative number is passed on as it is. *)
Theorem leaderboardLimit_clamped :
  (forall parsed, GameRoutes.leaderboardLimit parsed <= 50)
  /\ GameRoutes.leaderboardLimit None = 10
  /\ GameRoutes.leaderboardLimit (Some 0) = 10
  /\ GameRoutes.leaderboardLimit (Some 200) = 50
  /\ (forall n, 1 <= n <= 50 -> GameRoutes.leaderboardLimit (Some n) = n)
  /\ (forall n, 50 <= n -> GameRoutes.leaderboardLimit (Some n) = 50)
  /\ (forall n, n < 0 -> GameRoutes.leaderboardLimit (Some n) = n).
Proof.
  unfold GameRoutes.leaderboardLimit. split_and!; try reflexivity.
  - intros parsed. lia.
  - intros n Hn. destruct (Z.eqb_spec n 0); lia.
  - intros n Hn. destruct (Z.eqb_spec n 0); lia.
  - intros n Hn. destruct (Z.eqb_spec n 0); lia.
Qed.

(** X17. The participant count that [GET /stats] reports can exceed the
    number of connected users. A round that starts takes the connected
    socket ids as its participants, while a disconnect removes the user id:
    when the socket that leaves carries a user id that is not itself a
    connected socket id, the participant set keeps the departed socket, and
    the report shows one participant more than connected users. *)
Theorem stats_participants_stale :
  forall now (s : GameService.Service) gen socketId user,
    GameService.connectedUsers s !! socketId = Some user ->
    GameService.u_id user ∉ dom (GameService.connectedUsers s) ->
    let started := snd (fst (fst (GameService.startNewQuestion now s gen))) in
    let left := GameService.removeUser socketId started in
    GameService.connectedUsers left !! socketId = None
    /\ socketId ∈ GameService.participants (GameService.gameState left)
    /\ GameRoutes.participants (GameRoutes.stats left)
       = S (GameRoutes.connectedUsers (GameRoutes.stats left)).
Proof.
  intros now s gen socketId user Hu Hid started left.
  assert (Hstarted : GameService.connectedUsers started = GameService.connectedUsers s
                     /\ GameService.participants (GameService.gameState started)
                        = dom (GameService.connectedUsers s)).
  { subst started. unfold GameService.startNewQuestion.
    destruct (generateQuestion_returns
                (GameService.currentDifficulty (GameService.adjustDifficulty s)) now gen)
      as (q & gen' & -> & _).
    simpl. unfold GameService.adjustDifficulty.
    destruct (_ <=? 2)%nat; [|destruct (_ <=? 5)%nat]; auto. }
  destruct Hstarted as [Hc Hp].
  assert (Hleft : GameService.connectedUsers left
                  = delete socketId (GameService.connectedUsers s)
                  /\ GameService.participants (GameService.gameState left)
                     = dom (GameService.connectedUsers s)).
  { subst left. unfold GameService.removeUser. rewrite Hc, Hu. simpl.
    rewrite Hp. split; [reflexivity|]. apply leibniz_equiv.
    apply difference_disjoint. apply disjoint_singleton_r. exact Hid. }
  destruct Hleft as [Hc' Hp'].
  split; [rewrite Hc'; apply lookup_delete_eq|].
  split; [rewrite Hp'; apply elem_of_dom; rewrite Hu; eauto|].
  unfold GameRoutes.stats, GameService.getGameState, GameService.getConnectedUsersCount.
  simpl. rewrite Hp', Hc', size_dom.
  rewrite map_size_delete_Some by (rewrite Hu; eauto).
  assert (size (GameService.connectedUsers s) <> 0%nat); [|lia].
  apply map_size_ne_0_lookup. exists socketId. rewrite Hu. eauto.
Qed.

Lemma stats_participants_stale_witness :
  let s := fst (GameService.addUser "s1" "u1" "alice" (Server.svc demoServer)) in
  let user := {| GameService.u_id := "u1"; GameService.u_username := "alice";
                 GameService.u_socketId := "s1" |} in
  GameService.connectedUsers s !! "s1" = Some user
  /\ GameRoutes.participants
       (GameRoutes.stats
          (GameService.removeUser "s1"
             (snd (fst (fst (GameService.startNewQuestion 5 s demoGen))))))
     = S (GameRoutes.connectedUsers
            (GameRoutes.stats
               (GameService.removeUser "s1"
                  (snd (fst (fst (GameService.startNewQuestion 5 s demoGen))))))).
Proof.
  intros s user.
  assert (Hu : GameService.connectedUsers s !! "s1" = Some user)
    by (vm_compute; reflexivity).
  split; [exact Hu|].
  apply (stats_participants_stale 5 s demoGen "s1" user Hu).
  apply not_elem_of_dom. vm_compute. reflexivity.
Defined.
